(** * BusinessProcessAnalyser: the orchestration run of [main.py]

    A shallow embedding of [run_process_advisor] (src/main.py).  The function
    is one long effectful script: it reads the configuration and the console,
    creates three agent definitions on the hosting platform, posts one user
    message, starts one blocking run, collects the assistant's texts, writes
    two artifacts and deletes the agents in a [finally] block.

    The hosting platform, the console, the clock and the file system are
    external; they are gathered in a record [World] that answers every call
    the script makes.  The script itself is written in a small monad with
    three outcomes (fall through, [return], [raise]), a mutable state for the
    local variables the [finally] block inspects, and the list of events the
    script causes, in order.

    [clean_markdown], the other function of the file, is a function on
    strings; its regular expressions are embedded by what they match.

    Scope of the model.  Python [str] values are sequences of code points.
    Exceptions are instances of Python's [Exception]; asynchronous interrupts
    are not modelled.  Building the credential and the client object and
    entering or leaving [with agents_client:] touch no platform resource and
    are silent.  The console is a finite list of lines; [input()] on an
    exhausted console raises [EOFError]. *)

From Stdlib Require Import List NArith Bool String Ascii Lia Permutation.
Import ListNotations.

Set Implicit Arguments.

(** ** Python strings *)

Module PyStr.

Definition char := N.
Definition str := list char.

(** A literal of the source whose characters are all ASCII. *)
Definition lit (s : string) : str :=
  map N_of_ascii (list_ascii_of_string s).

Definition nl : str := [10%N].

(** [str.isspace] on one code point, CPython's [_PyUnicode_IsWhitespace]. *)
Definition is_whitespace (c : char) : bool :=
  ((9 <=? c) && (c <=? 13) || (28 <=? c) && (c <=? 32)
   || (c =? 133) || (c =? 160) || (c =? 5760)
   || (8192 <=? c) && (c <=? 8202)
   || (c =? 8232) || (c =? 8233) || (c =? 8239) || (c =? 8287)
   || (c =? 12288))%N.

Fixpoint lstrip (s : str) : str :=
  match s with
  | [] => []
  | c :: s' => if is_whitespace c then lstrip s' else s
  end.

Definition rstrip (s : str) : str := rev (lstrip (rev s)).

(** [s.strip()] *)
Definition strip (s : str) : str := rstrip (lstrip s).

Fixpoint eqb (a b : str) : bool :=
  match a, b with
  | [], [] => true
  | x :: a', y :: b' => N.eqb x y && eqb a' b'
  | _, _ => false
  end.

(** Truth value of a string: non-empty. *)
Definition truthy (s : str) : bool :=
  match s with [] => false | _ :: _ => true end.

(** [sep.join(parts)] *)
Fixpoint join (sep : str) (parts : list str) : str :=
  match parts with
  | [] => []
  | [p] => p
  | p :: ps => p ++ sep ++ join sep ps
  end.

(** [needle in hay] *)
Fixpoint starts_with (needle hay : str) : bool :=
  match needle, hay with
  | [], _ => true
  | x :: n', y :: h' => N.eqb x y && starts_with n' h'
  | _ :: _, [] => false
  end.

Fixpoint contains (needle hay : str) : bool :=
  starts_with needle hay ||
  match hay with
  | [] => false
  | _ :: h' => contains needle h'
  end.

End PyStr.

Import PyStr.

(** ** Data model *)

(** A Python [Exception] instance: its class and [str(e)]. *)
Inductive ExnClass := RuntimeError | EOFError | OSError | ServiceError.

Record Exn := { exn_class : ExnClass; exn_text : str }.

Inductive Result (A : Type) : Type :=
| Ok (a : A)
| Err (e : Exn).

Arguments Ok {A} a.
Arguments Err {A} e.

(** [ConnectedAgentTool(id, name, description).definitions[0]]: the single
    tool definition the binding carries. *)
Record ToolDefinition := {
  tool_id : str;
  tool_name : str;
  tool_description : str
}.

Definition ConnectedAgentTool (id name description : str) : ToolDefinition :=
  {| tool_id := id; tool_name := name; tool_description := description |}.

Record Agent := {
  agent_id : str;
  agent_name : str;
  agent_model : str;
  agent_instructions : str;
  agent_tools : list ToolDefinition
}.

Inductive MessageRole := USER | AGENT.

(** [MessageRole] is a string enumeration; [m.role == "assistant"] compares
    its value. *)
Definition role_value (r : MessageRole) : str :=
  match r with
  | USER => lit "user"
  | AGENT => lit "assistant"
  end.

Record Message := {
  role : MessageRole;
  text_messages : list str
}.

Inductive ListSortOrder := ASCENDING | DESCENDING.

Inductive RunStatus := Created | Queued | InProgress | Completed | Failed.

Definition status_value (st : RunStatus) : str :=
  match st with
  | Created => lit "created"
  | Queued => lit "queued"
  | InProgress => lit "in_progress"
  | Completed => lit "completed"
  | Failed => lit "failed"
  end.

Record Run := {
  status : RunStatus;
  last_error : option str
}.

(** One call the orchestrating model made to a connected agent while the
    run was in progress. *)
Record Delegation := {
  callee : str;
  call_input : str;
  call_output : str
}.

Definition Path := list str.

(** The dictionary [result] handed to [json.dump]. *)
Record ReportJson := {
  timestamp : str;
  process_description : str;
  custom_commands : str;
  full_report : str
}.

(** ** The world outside the script *)

Record World := {
  (** [os.getenv] once [load_dotenv()] has run *)
  getenv : str -> option str;
  (** lines the console will deliver to [input()] *)
  console_lines : list str;
  (** [agents_client.create_agent], by agent name: the new id, or an error *)
  create_agent_result : str -> Result str;
  (** [agents_client.threads.create()] *)
  create_thread_result : Result str;
  (** [agents_client.messages.create] *)
  create_message_result : Result unit;
  (** [agents_client.runs.create_and_process]: the delegated calls the
      platform performed during the blocking call, the messages it appended
      to the thread, and the run handed back *)
  run_delegations : list Delegation;
  run_messages : list Message;
  create_and_process_result : Result Run;
  (** iterating the listed messages may break after some items *)
  list_failure : option (nat * Exn);
  (** the three readings of [datetime.now()], as formatted by the script:
      [%Y%m%d-%H%M%S], [%Y-%m-%d %H:%M:%S] and [isoformat()] *)
  now_compact : str;
  now_date : str;
  now_iso : str;
  (** file system *)
  mkdir_result : Result unit;
  open_result : Path -> Result unit;
  resolve : Path -> str;
  (** [agents_client.delete_agent], by id *)
  delete_agent_result : str -> Result unit
}.

(** ** Events *)

Inductive Event :=
| EvClearScreen
| EvPrint (text : str)
| EvInput (prompt : str) (line : option str)
| EvCreateAgent (model name instructions : str) (tools : list ToolDefinition)
                (r : Result str)
| EvCreateThread (r : Result str)
| EvCreateMessage (thread_id : str) (r : MessageRole) (content : str)
                  (res : Result unit)
| EvCreateAndProcess (thread_id agent_id : str) (calls : list Delegation)
                     (r : Result Run)
| EvListMessages (thread_id : str) (order : ListSortOrder)
| EvMkdir (p : Path) (r : Result unit)
| EvOpen (p : Path) (r : Result unit)
| EvWrite (p : Path) (chunk : str)
| EvJsonDump (p : Path) (result : ReportJson)
| EvDeleteAgent (id : str) (r : Result unit).

(** ** The script monad *)

(** What the script can still change: the unread console lines, the thread's
    message log (creation order), and the three local variables the
    [finally] block looks up through [locals()]. *)
Record State := {
  pending_input : list str;
  thread_log : list Message;
  orchestrator : option Agent;
  analysis_agent : option Agent;
  optimizer_agent : option Agent
}.

Inductive Outcome (A : Type) : Type :=
| Normal (a : A)
| Returned
| Raised (e : Exn).

Arguments Normal {A} a.
Arguments Returned {A}.
Arguments Raised {A} e.

Definition M (A : Type) : Type := State -> Outcome A * State * list Event.

Definition ret {A} (a : A) : M A := fun s => (Normal a, s, []).

Definition bind {A B} (m : M A) (f : A -> M B) : M B := fun s =>
  match m s with
  | (Normal a, s1, t1) =>
      match f a s1 with
      | (o, s2, t2) => (o, s2, t1 ++ t2)
      end
  | (Returned, s1, t1) => (Returned, s1, t1)
  | (Raised e, s1, t1) => (Raised e, s1, t1)
  end.

Declare Scope script_scope.
Delimit Scope script_scope with script.
Notation "x <- m ;; k" := (bind m (fun x => k))
  (at level 61, m at next level, right associativity) : script_scope.
Notation "m ;; k" := (bind m (fun _ => k))
  (at level 61, right associativity) : script_scope.
Local Open Scope script_scope.

(** [raise e] *)
Definition raise {A} (e : Exn) : M A := fun s => (Raised e, s, []).

(** [return] *)
Definition return_ {A} : M A := fun s => (Returned, s, []).

Definition emit (e : Event) : M unit := fun s => (Normal tt, s, [e]).

(** [try: body finally: fin].  The [finally] block runs whatever the body
    did; the body's outcome stands unless the block itself leaves by
    [return] or [raise]. *)
Definition try_finally {A} (body : M A) (fin : M unit) : M A := fun s =>
  match body s with
  | (o, s1, t1) =>
      match fin s1 with
      | (Normal _, s2, t2) => (o, s2, t1 ++ t2)
      | (Returned, s2, t2) => (Returned, s2, t1 ++ t2)
      | (Raised e, s2, t2) => (Raised e, s2, t1 ++ t2)
      end
  end.

(** [try: body except Exception as e: handler e] *)
Definition try_except {A} (body : M A) (handler : Exn -> M A) : M A := fun s =>
  match body s with
  | (Raised e, s1, t1) =>
      match handler e s1 with
      | (o, s2, t2) => (o, s2, t1 ++ t2)
      end
  | r => r
  end.

(** [for x in xs: body x] *)
Fixpoint for_each {A} (xs : list A) (body : A -> M unit) : M unit :=
  match xs with
  | [] => ret tt
  | x :: xs' => body x ;; for_each xs' body
  end.

(** A loop that carries a local value from one round to the next. *)
Fixpoint for_fold {A B} (xs : list A) (acc : B) (body : B -> A -> M B) : M B :=
  match xs with
  | [] => ret acc
  | x :: xs' => acc' <- body acc x ;; for_fold xs' acc' body
  end.

(** A call whose answer the world holds: run it, log it, raise on error. *)
Definition call {A} (r : Result A) (ev : Event) : M A := fun s =>
  match r with
  | Ok a => (Normal a, s, [ev])
  | Err e => (Raised e, s, [ev])
  end.

Definition print (text : str) : M unit := emit (EvPrint text).

(** [input(prompt)] *)
Definition input (prompt : str) : M str := fun s =>
  match pending_input s with
  | [] => (Raised {| exn_class := EOFError; exn_text := lit "EOF when reading a line" |},
           s, [EvInput prompt None])
  | line :: rest =>
      (Normal line,
       {| pending_input := rest; thread_log := thread_log s;
          orchestrator := orchestrator s; analysis_agent := analysis_agent s;
          optimizer_agent := optimizer_agent s |},
       [EvInput prompt (Some line)])
  end.

(** ** Text constants of the script *)

Definition endash : str := [8211%N].
Definition clipboard : str := [128203%N].
Definition magnifier : str := [128269%N].
Definition folder : str := [128193%N].
Definition check_mark : str := [9989%N].

Definition analysis_instructions : str :=
  lit "You are a Business Process Analysis expert. "
  ++ lit "Analyse the provided process description and extract the following four items:" ++ nl
  ++ lit "1. Current process steps " ++ endash ++ lit " list them in order as a numbered list." ++ nl
  ++ lit "2. Bottlenecks or inefficiencies " ++ endash ++ lit " identify what slows down or disrupts the process." ++ nl
  ++ lit "3. Tools, systems, or resources currently involved " ++ endash ++ lit " e.g., software, equipment, manual methods." ++ nl
  ++ lit "4. Missing information " ++ endash ++ lit " what additional details would you need to fully understand the process?" ++ nl ++ nl
  ++ lit "Present your findings in exactly four sections with the following headings: "
  ++ lit "'Process Steps', 'Bottlenecks', 'Tools Involved', 'Missing Information'. "
  ++ lit "If any category has no items, explicitly state 'None identified' under that heading. "
  ++ lit "Do not add any extra commentary outside these sections.".

Definition optimizer_instructions : str :=
  lit "You are a Process Optimization Advisor. "
  ++ lit "Based on the analysis provided, recommend improvements covering exactly four categories:" ++ nl
  ++ lit "1. Automation opportunities " ++ endash ++ lit " which steps could be automated and with what technology." ++ nl
  ++ lit "2. Elimination of redundant steps " ++ endash ++ lit " identify steps that add no value and could be removed." ++ nl
  ++ lit "3. Clearer ownership " ++ endash ++ lit " who should be responsible for each step or area." ++ nl
  ++ lit "4. Feasibility constraints " ++ endash ++ lit " technical, organisational, or cost limitations to consider." ++ nl ++ nl
  ++ lit "Present your recommendations in exactly four sections with the following headings: "
  ++ lit "'Automation Opportunities', 'Elimination of Redundant Steps', "
  ++ lit "'Clearer Ownership', 'Feasibility Constraints'. "
  ++ lit "If any category has no items, explicitly state 'None identified' under that heading. "
  ++ lit "Do not add any extra commentary outside these sections.".

Definition orchestrator_instructions : str :=
  lit "You are a Process Automation Orchestrator. "
  ++ lit "The user has already provided a process description. "
  ++ lit "Your job is to:" ++ nl
  ++ lit "1. Call the 'process_analysis_agent' to analyse the process. It will return four sections: "
  ++ lit "'Process Steps', 'Bottlenecks', 'Tools Involved', 'Missing Information'." ++ nl
  ++ lit "2. Take that analysis and give it to the 'process_optimization_advisor' to generate recommendations. "
  ++ lit "It will return four sections: 'Automation Opportunities', 'Elimination of Redundant Steps', "
  ++ lit "'Clearer Ownership', 'Feasibility Constraints'." ++ nl
  ++ lit "3. Present the final output with two main sections: "
  ++ lit "'PROCESS ANALYSIS' and 'OPTIMIZATION RECOMMENDATIONS'. "
  ++ lit "Under 'PROCESS ANALYSIS', include the four sub-sections from the analysis agent exactly as provided. "
  ++ lit "Under 'OPTIMIZATION RECOMMENDATIONS', include the four sub-sections from the optimization advisor exactly as provided. "
  ++ lit "Do not add any additional commentary or merge sections. "
  ++ lit "If any of the required eight sub-sections are missing, you must explicitly note the deficiency and ask the user to rerun.".

Definition ENDPOINT_KEY : str := lit "PROJECT_ENDPOINT".
Definition MODEL_KEY : str := lit "MODEL_DEPLOYMENT_NAME".

Definition analysis_name : str := lit "process_analysis_agent".
Definition optimizer_name : str := lit "process_optimization_advisor".
Definition orchestrator_name : str := lit "process_orchestrator".

Definition config_error : Exn :=
  {| exn_class := RuntimeError;
     exn_text := lit "Set PROJECT_ENDPOINT and MODEL_DEPLOYMENT_NAME in your .env file." |}.

Definition banner : str :=
  nl ++ clipboard ++ lit " --- Business Process Automation Advisor --- " ++ clipboard ++ nl.
Definition describe_prompt : str :=
  lit "Describe the business process you want to analyse (multi-line, empty line to finish):".
Definition no_description_msg : str := lit "No process description provided. Exiting.".
Definition instructions_prompt : str :=
  nl ++ lit "Enter any additional instructions or 'none': ".
Definition analysing_msg : str := nl ++ magnifier ++ lit " Analysing process..." ++ nl.
Definition cleaning_msg : str := nl ++ lit "Cleaning up agents...".
Definition done_msg : str := check_mark ++ lit " Done.".
Definition none_word : str := lit "none".

(** [str(x)] for an optional attribute. *)
Definition str_of_option (o : option str) : str :=
  match o with
  | None => lit "None"
  | Some s => s
  end.

(** [bool(x)] for what [os.getenv] returns. *)
Definition env_truthy (o : option str) : bool :=
  match o with
  | None => false
  | Some s => truthy s
  end.

(** ** Pieces of the script that build text *)

(** [input(...).strip() or "none"] *)
Definition normalise_commands (raw : str) : str :=
  if truthy (strip raw) then strip raw else none_word.

(** The user message posted to the thread (lines 139-142). *)
Definition user_message (process_description custom_commands : str) : str :=
  let m := lit "Process description:" ++ nl ++ process_description ++ nl in
  let m := if negb (eqb custom_commands none_word)
           then m ++ nl ++ lit "Additional instructions: " ++ custom_commands ++ nl
           else m in
  m ++ nl ++ lit "Please analyse and optimise this process.".

Definition out_dir : Path := [lit "outputs"].
Definition md_path (ts : str) : Path :=
  out_dir ++ [lit "process_report_" ++ ts ++ lit ".md"].
Definition json_path (ts : str) : Path :=
  out_dir ++ [lit "process_report_" ++ ts ++ lit ".json"].

(** ** The script *)

Definition set_pending_input (l : list str) (s : State) : State :=
  {| pending_input := l; thread_log := thread_log s;
     orchestrator := orchestrator s; analysis_agent := analysis_agent s;
     optimizer_agent := optimizer_agent s |}.

Definition set_thread_log (l : list Message) (s : State) : State :=
  {| pending_input := pending_input s; thread_log := l;
     orchestrator := orchestrator s; analysis_agent := analysis_agent s;
     optimizer_agent := optimizer_agent s |}.

Definition assign_analysis_agent (a : Agent) : M unit := fun s =>
  (Normal tt,
   {| pending_input := pending_input s; thread_log := thread_log s;
      orchestrator := orchestrator s; analysis_agent := Some a;
      optimizer_agent := optimizer_agent s |}, []).

Definition assign_optimizer_agent (a : Agent) : M unit := fun s =>
  (Normal tt,
   {| pending_input := pending_input s; thread_log := thread_log s;
      orchestrator := orchestrator s; analysis_agent := analysis_agent s;
      optimizer_agent := Some a |}, []).

Definition assign_orchestrator (a : Agent) : M unit := fun s =>
  (Normal tt,
   {| pending_input := pending_input s; thread_log := thread_log s;
      orchestrator := Some a; analysis_agent := analysis_agent s;
      optimizer_agent := optimizer_agent s |}, []).

(** [locals().get(...)] for the three agent variables, in the order of
    [agents_to_clean]. *)
Definition agents_to_clean : M (list (option Agent)) := fun s =>
  (Normal [orchestrator s; analysis_agent s; optimizer_agent s], s, []).

(** The input loop (lines 49-54): read lines until an empty one. *)
Fixpoint input_loop_from (pending : list str) (process_lines : list str)
  : Outcome (list str) * list str * list Event :=
  match pending with
  | [] =>
      (Raised {| exn_class := EOFError; exn_text := lit "EOF when reading a line" |},
       [], [EvInput [] None])
  | line :: rest =>
      if eqb line []
      then (Normal process_lines, rest, [EvInput [] (Some line)])
      else match input_loop_from rest (process_lines ++ [line]) with
           | (o, rest', t) => (o, rest', EvInput [] (Some line) :: t)
           end
  end.

Definition input_loop (process_lines : list str) : M (list str) := fun s =>
  match input_loop_from (pending_input s) process_lines with
  | (o, rest, t) => (o, set_pending_input rest s, t)
  end.

(** What iterating [agents_client.messages.list(...)] yields: items, then
    possibly an error. *)
Record Paged := {
  items : list Message;
  broken : option Exn
}.

Section Script.

Variable w : World.

Definition create_agent (model name instructions : str)
                        (tools : list ToolDefinition) : M Agent :=
  id <- call (create_agent_result w name)
             (EvCreateAgent model name instructions tools (create_agent_result w name)) ;;
  ret {| agent_id := id; agent_name := name; agent_model := model;
         agent_instructions := instructions; agent_tools := tools |}.

Definition threads_create : M str :=
  call (create_thread_result w) (EvCreateThread (create_thread_result w)).

Definition messages_create (thread_id : str) (r : MessageRole) (content : str)
  : M unit := fun s =>
  match create_message_result w with
  | Ok _ =>
      (Normal tt,
       set_thread_log (thread_log s ++ [{| role := r; text_messages := [content] |}]) s,
       [EvCreateMessage thread_id r content (create_message_result w)])
  | Err e =>
      (Raised e, s, [EvCreateMessage thread_id r content (create_message_result w)])
  end.

Definition create_and_process (thread_id agent_id : str) : M Run := fun s =>
  let ev := EvCreateAndProcess thread_id agent_id (run_delegations w)
                               (create_and_process_result w) in
  let s' := set_thread_log (thread_log s ++ run_messages w) s in
  match create_and_process_result w with
  | Ok r => (Normal r, s', [ev])
  | Err e => (Raised e, s', [ev])
  end.

Definition messages_list (thread_id : str) (order : ListSortOrder) : M Paged :=
  fun s =>
  let all := match order with
             | ASCENDING => thread_log s
             | DESCENDING => rev (thread_log s)
             end in
  (Normal match list_failure w with
          | None => {| items := all; broken := None |}
          | Some (n, e) => {| items := firstn n all; broken := Some e |}
          end,
   s, [EvListMessages thread_id order]).

Definition delete_agent (id : str) : M unit :=
  call (delete_agent_result w id) (EvDeleteAgent id (delete_agent_result w id)).

Definition mkdir (p : Path) : M unit :=
  call (mkdir_result w) (EvMkdir p (mkdir_result w)).

Definition open_write (p : Path) : M unit :=
  call (open_result w p) (EvOpen p (open_result w p)).

Definition write (p : Path) (chunk : str) : M unit := emit (EvWrite p chunk).

(** The [finally] block (lines 207-221). *)
Definition cleanup : M unit :=
  print cleaning_msg ;;
  agents <- agents_to_clean ;;
  for_each agents (fun agent =>
    match agent with
    | Some a =>
        try_except (delete_agent (agent_id a))
          (fun e => print (lit "Warning: could not delete agent " ++ agent_id a
                           ++ lit ": " ++ exn_text e))
    | None => ret tt
    end) ;;
  print done_msg.

(** The block under [with agents_client:] (lines 46-205). *)
Definition session (MODEL_DEPLOYMENT : str) : M unit :=
  (* User Input *)
  print banner ;;
  print describe_prompt ;;
  process_lines <- input_loop [] ;;
  let process_description := join nl process_lines in
  if negb (truthy (strip process_description))
  then print no_description_msg ;; return_
  else
  raw <- input instructions_prompt ;;
  let custom_commands := normalise_commands raw in
  print analysing_msg ;;
  (* Create Agents *)
  a <- create_agent MODEL_DEPLOYMENT analysis_name analysis_instructions [] ;;
  assign_analysis_agent a ;;
  o <- create_agent MODEL_DEPLOYMENT optimizer_name optimizer_instructions [] ;;
  assign_optimizer_agent o ;;
  let t_analysis := ConnectedAgentTool (agent_id a) analysis_name
    (lit "Analyses a business process and extracts steps, bottlenecks, tools, missing info.") in
  let t_optimizer := ConnectedAgentTool (agent_id o) optimizer_name
    (lit "Provides automation recommendations based on process analysis.") in
  orch <- create_agent MODEL_DEPLOYMENT orchestrator_name orchestrator_instructions
                       [t_analysis; t_optimizer] ;;
  assign_orchestrator orch ;;
  (* Run Orchestration *)
  thread <- threads_create ;;
  messages_create thread USER (user_message process_description custom_commands) ;;
  run <- create_and_process thread (agent_id orch) ;;
  if eqb (status_value (status run)) (lit "failed")
  then print (lit "Run failed: " ++ str_of_option (last_error run)) ;; return_
  else
  (* Retrieve and Display Results *)
  messages <- messages_list thread ASCENDING ;;
  assistant_texts <- for_fold (items messages) [] (fun assistant_texts m =>
    if eqb (role_value (role m)) (lit "assistant")
       && match text_messages m with [] => false | _ :: _ => true end
    then let text := last (text_messages m) [] in
         print text ;; ret (assistant_texts ++ [text])
    else ret assistant_texts) ;;
  match broken messages with Some e => raise e | None => ret tt end ;;
  let full_report := join nl assistant_texts in
  (* Save Output *)
  let ts := now_compact w in
  mkdir out_dir ;;
  open_write (md_path ts) ;;
  write (md_path ts) (lit "# Business Process Automation Report" ++ nl ++ nl) ;;
  write (md_path ts) (lit "**Date:** " ++ now_date w ++ nl ++ nl) ;;
  write (md_path ts) (lit "## Original Process Description" ++ nl) ;;
  write (md_path ts) (lit "```" ++ nl ++ process_description ++ nl ++ lit "```" ++ nl ++ nl) ;;
  (if negb (eqb custom_commands none_word)
   then write (md_path ts) (lit "**Additional Instructions:** " ++ custom_commands ++ nl ++ nl)
   else ret tt) ;;
  write (md_path ts) (lit "## Full Report" ++ nl ++ nl) ;;
  write (md_path ts) full_report ;;
  let result := {| timestamp := now_iso w;
                   process_description := process_description;
                   custom_commands := custom_commands;
                   full_report := full_report |} in
  open_write (json_path ts) ;;
  emit (EvJsonDump (json_path ts) result) ;;
  print (nl ++ folder ++ lit " Reports saved:") ;;
  print (lit "  Markdown: " ++ resolve w (md_path ts)) ;;
  print (lit "  JSON: " ++ resolve w (json_path ts)).

(** [run_process_advisor] (lines 28-221).  Past the check both settings
    are present, and [str_of_option] reads the model deployment name. *)
Definition run_process_advisor : M unit :=
  emit EvClearScreen ;;
  let PROJECT_ENDPOINT := getenv w ENDPOINT_KEY in
  let MODEL_DEPLOYMENT := getenv w MODEL_KEY in
  if negb (env_truthy PROJECT_ENDPOINT) || negb (env_truthy MODEL_DEPLOYMENT)
  then raise config_error
  else try_finally (session (str_of_option MODEL_DEPLOYMENT)) cleanup.

Definition initial_state : State :=
  {| pending_input := console_lines w; thread_log := [];
     orchestrator := None; analysis_agent := None; optimizer_agent := None |}.

(** One invocation from a fresh process. *)
Definition invoke : Outcome unit * State * list Event :=
  run_process_advisor initial_state.

Definition outcome_of : Outcome unit := fst (fst invoke).
Definition trace_of : list Event := snd invoke.

End Script.

(** ** Observations on a trace *)

(** Ids of the agent definitions the platform created. *)
Definition created_ids (t : list Event) : list str :=
  flat_map (fun e => match e with
                     | EvCreateAgent _ _ _ _ (Ok id) => [id]
                     | _ => []
                     end) t.

(** Ids the script tried to delete, one entry per attempt. *)
Definition delete_attempts (t : list Event) : list str :=
  flat_map (fun e => match e with
                     | EvDeleteAgent id _ => [id]
                     | _ => []
                     end) t.

(** Lines written to the console by [print]. *)
Definition printed (t : list Event) : list str :=
  flat_map (fun e => match e with
                     | EvPrint text => [text]
                     | _ => []
                     end) t.

Definition is_console_event (e : Event) : bool :=
  match e with
  | EvClearScreen | EvPrint _ | EvInput _ _ => true
  | _ => false
  end.

Definition is_file_event (e : Event) : bool :=
  match e with
  | EvMkdir _ _ | EvOpen _ _ | EvWrite _ _ | EvJsonDump _ _ => true
  | _ => false
  end.

(** Delegated calls the platform made during the runs of a trace. *)
Definition delegated_calls (t : list Event) : list Delegation :=
  flat_map (fun e => match e with
                     | EvCreateAndProcess _ _ calls _ => calls
                     | _ => []
                     end) t.

(** The agents bound to the three local variables, in the order of
    [agents_to_clean]. *)
Definition tracked (s : State) : list Agent :=
  flat_map (fun o => match o with Some a => [a] | None => [] end)
           [orchestrator s; analysis_agent s; optimizer_agent s].

Definition delete_warning (id : str) (e : Exn) : str :=
  lit "Warning: could not delete agent " ++ id ++ lit ": " ++ exn_text e.

(** What one round of the cleanup loop does. *)
Definition delete_round (w : World) (agent : option Agent) : list Event :=
  match agent with
  | None => []
  | Some a =>
      EvDeleteAgent (agent_id a) (delete_agent_result w (agent_id a))
      :: match delete_agent_result w (agent_id a) with
         | Ok _ => []
         | Err e => [EvPrint (delete_warning (agent_id a) e)]
         end
  end.

(** Results of the blocking runs the script started. *)
Definition run_results (t : list Event) : list (Result Run) :=
  flat_map (fun e => match e with
                     | EvCreateAndProcess _ _ _ r => [r]
                     | _ => []
                     end) t.

(** The dictionaries handed to [json.dump]. *)
Definition json_dumps (t : list Event) : list ReportJson :=
  flat_map (fun e => match e with
                     | EvJsonDump _ result => [result]
                     | _ => []
                     end) t.

(** The chunks written to files, in order. *)
Definition written (t : list Event) : list str :=
  flat_map (fun e => match e with
                     | EvWrite _ chunk => [chunk]
                     | _ => []
                     end) t.

(** Contents of the messages posted to the thread. *)
Definition posted (t : list Event) : list str :=
  flat_map (fun e => match e with
                     | EvCreateMessage _ _ content _ => [content]
                     | _ => []
                     end) t.

(** Sort orders the script asked for when listing messages. *)
Definition list_orders (t : list Event) : list ListSortOrder :=
  flat_map (fun e => match e with
                     | EvListMessages _ order => [order]
                     | _ => []
                     end) t.

(** Lines read from the console, with the prompt shown. *)
Definition answers (t : list Event) : list (str * option str) :=
  flat_map (fun e => match e with
                     | EvInput prompt line => [(prompt, line)]
                     | _ => []
                     end) t.

(** Calls to [create_agent]: name, instructions, tools and answer. *)
Definition agent_creations (t : list Event)
  : list (str * str * list ToolDefinition * Result str) :=
  flat_map (fun e => match e with
                     | EvCreateAgent _ name instructions tools r =>
                         [(name, instructions, tools, r)]
                     | _ => []
                     end) t.

(** Thread and agent the blocking runs were started on. *)
Definition run_starts (t : list Event) : list (str * str) :=
  flat_map (fun e => match e with
                     | EvCreateAndProcess thread_id agent_id _ _ => [(thread_id, agent_id)]
                     | _ => []
                     end) t.

(** Events that are not console traffic. *)
Definition beyond_console (t : list Event) : list Event :=
  flat_map (fun e => if is_console_event e then [] else [e]) t.

(** Events that touch the file system. *)
Definition file_events (t : list Event) : list Event :=
  flat_map (fun e => if is_file_event e then [e] else []) t.

(** What the collecting loop (lines 167-171) takes from one message. *)
Definition collected (m : Message) : list str :=
  if eqb (role_value (role m)) (lit "assistant")
     && match text_messages m with [] => false | _ :: _ => true end
  then [last (text_messages m) []]
  else [].

(** The result of a step that first caused the events [t]. *)
Definition after {A} (t : list Event) (r : Outcome A * State * list Event)
  : Outcome A * State * list Event :=
  (fst (fst r), snd (fst r), t ++ snd r).

(** An invocation with both settings present: the session, then the
    [finally] block on the state the session left. *)
Definition cleanup_events (w : World) (s : State) : list Event :=
  EvPrint cleaning_msg
  :: flat_map (delete_round w)
       [orchestrator s; analysis_agent s; optimizer_agent s]
  ++ [EvPrint done_msg].



(** ** What an invocation was given *)

(** The description typed at the console: the lines up to the first empty
    one, joined by newlines; none if the console ends first. *)
Definition entered_description (w : World) : option str :=
  match input_loop_from (console_lines w) [] with
  | (Normal process_lines, _, _) => Some (join nl process_lines)
  | _ => None
  end.

(** The thread as the platform holds it once the run is over, in creation
    order: the user messages the script posted, then what the run
    appended. *)
Definition thread_messages (w : World) (t : list Event) : list Message :=
  map (fun content => {| role := USER; text_messages := [content] |}) (posted t)
  ++ run_messages w.

Definition is_assistant (m : Message) : bool :=
  match role m with
  | AGENT => true
  | USER => false
  end.

Definition has_text (m : Message) : bool :=
  match text_messages m with
  | [] => false
  | _ :: _ => true
  end.

Definition final_segment (m : Message) : str := last (text_messages m) [].

(** The final segments of the assistant messages that carry text, in
    thread order. *)
Definition report_texts (thread : list Message) : list str :=
  map final_segment (filter (fun m => is_assistant m && has_text m) thread).

(** The report text: those segments with a newline between neighbours. *)
Definition joined_full_text (thread : list Message) : str :=
  join nl (report_texts thread).

(** The warnings the cleanup block prints for the given deletions. *)
Definition delete_warnings (w : World) (ids : list str) : list str :=
  flat_map (fun id => match delete_agent_result w id with
                      | Ok _ => []
                      | Err e => [delete_warning id e]
                      end) ids.

Definition saved_msg : str := nl ++ folder ++ lit " Reports saved:".

(** The stripped instructions line stands for no instructions. *)
Definition is_sentinel (stripped : str) : bool :=
  eqb stripped [] || eqb stripped none_word.

Definition message_without (d : str) : str :=
  lit "Process description:" ++ nl ++ d ++ nl
  ++ nl ++ lit "Please analyse and optimise this process.".

Definition message_with (d instructions : str) : str :=
  lit "Process description:" ++ nl ++ d ++ nl
  ++ nl ++ lit "Additional instructions: " ++ instructions ++ nl
  ++ nl ++ lit "Please analyse and optimise this process.".

Definition markdown_without (date d report : str) : list str :=
  [ lit "# Business Process Automation Report" ++ nl ++ nl;
    lit "**Date:** " ++ date ++ nl ++ nl;
    lit "## Original Process Description" ++ nl;
    lit "```" ++ nl ++ d ++ nl ++ lit "```" ++ nl ++ nl;
    lit "## Full Report" ++ nl ++ nl;
    report ].

Definition markdown_with (date d instructions report : str) : list str :=
  [ lit "# Business Process Automation Report" ++ nl ++ nl;
    lit "**Date:** " ++ date ++ nl ++ nl;
    lit "## Original Process Description" ++ nl;
    lit "```" ++ nl ++ d ++ nl ++ lit "```" ++ nl ++ nl;
    lit "**Additional Instructions:** " ++ instructions ++ nl ++ nl;
    lit "## Full Report" ++ nl ++ nl;
    report ].

(** ** Statements of the specification, in its own words *)

(** Section 4.5 of the spec: keep the assistant messages, take the final
    segment of each, concatenate. *)
Definition spec_full_text (thread : list Message) : str :=
  List.concat (map final_segment (filter is_assistant thread)).

(** Section 4.5 of the spec: the two top sections and the eight
    subsections a validator is to look for. *)
Definition mandated_headings : list str :=
  [ lit "PROCESS ANALYSIS"; lit "OPTIMIZATION RECOMMENDATIONS";
    lit "Process Steps"; lit "Bottlenecks"; lit "Tools Involved";
    lit "Missing Information"; lit "Automation Opportunities";
    lit "Elimination of Redundant Steps"; lit "Clearer Ownership";
    lit "Feasibility Constraints" ].

Definition missing_headings (full_text : str) : list str :=
  filter (fun h => negb (contains h full_text)) mandated_headings.

(** What the caller sees on the console besides the echoed report texts. *)
Definition console_besides_report (w : World) (t : list Event) : list str :=
  filter (fun line => negb (existsb (eqb line)
                              (flat_map collected (thread_messages w t))))
         (printed t).

(** Section 4.1 of the spec on a sequence of delegated calls: a call to the
    optimization advisor comes only after a call to the analysis agent
    whose output it is handed. *)
Fixpoint analysis_feeds_optimizer (outputs : list str) (calls : list Delegation)
  : bool :=
  match calls with
  | [] => true
  | c :: rest =>
      if eqb (callee c) analysis_name
      then analysis_feeds_optimizer (call_output c :: outputs) rest
      else if eqb (callee c) optimizer_name
      then existsb (fun out => contains out (call_input c)) outputs
           && analysis_feeds_optimizer outputs rest
      else analysis_feeds_optimizer outputs rest
  end.

(** The two tool definitions the orchestrator is created with
    ([t_analysis] and [t_optimizer] of the script), by worker id. *)
Definition analysis_binding (ida : str) : ToolDefinition :=
  ConnectedAgentTool ida analysis_name
    (lit "Analyses a business process and extracts steps, bottlenecks, tools, missing info.").

Definition optimizer_binding (ido : str) : ToolDefinition :=
  ConnectedAgentTool ido optimizer_name
    (lit "Provides automation recommendations based on process analysis.").

(** ** Sample worlds *)

Definition sample_env (k : str) : option str :=
  if eqb k ENDPOINT_KEY then Some (lit "https://example.invalid/api/projects/p1")
  else if eqb k MODEL_KEY then Some (lit "gpt-4o")
  else None.

Definition no_env (k : str) : option str := None.

Definition completed_run : Run := {| status := Completed; last_error := None |}.

Definition failed_run : Run :=
  {| status := Failed; last_error := Some (lit "rate_limit_exceeded") |}.

Definition assistant_says (segments : list str) : Message :=
  {| role := AGENT; text_messages := segments |}.

Definition service_down : Exn :=
  {| exn_class := ServiceError; exn_text := lit "service unavailable" |}.

(** A world where every call succeeds, up to the given parts. *)
Definition make_world (env : str -> option str) (console : list str)
    (calls : list Delegation) (msgs : list Message) (r : Result Run)
    (deletes : str -> Result unit) : World :=
  {| getenv := env;
     console_lines := console;
     create_agent_result := fun name => Ok (lit "asst_" ++ name);
     create_thread_result := Ok (lit "thread_1");
     create_message_result := Ok tt;
     run_delegations := calls;
     run_messages := msgs;
     create_and_process_result := r;
     list_failure := None;
     now_compact := lit "20250101-120000";
     now_date := lit "2025-01-01 12:00:00";
     now_iso := lit "2025-01-01T12:00:00.000000";
     mkdir_result := Ok tt;
     open_result := fun _ => Ok tt;
     resolve := fun p => lit "/work/" ++ join (lit "/") p;
     delete_agent_result := deletes |}.

Definition all_deleted (id : str) : Result unit := Ok tt.

Definition typed_description : list str :=
  [lit "Customer submits support ticket via email";
   lit "Ticket manually logged in spreadsheet";
   [] ].

(** A completed run whose only assistant message is a short greeting. *)
Definition world_plain : World :=
  make_world sample_env (typed_description ++ [lit "none"]) []
    [assistant_says [lit "hello"]] (Ok completed_run) all_deleted.

(** The run fails. *)
Definition world_failed : World :=
  make_world sample_env (typed_description ++ [lit "none"]) []
    [] (Ok failed_run) all_deleted.

(** Only blanks are typed as the description. *)
Definition world_blank : World :=
  make_world sample_env [lit "   "; [9%N]; [] ] [] [] (Ok completed_run) all_deleted.

(** No setting is present. *)
Definition world_unconfigured : World :=
  make_world no_env (typed_description ++ [lit "none"]) []
    [assistant_says [lit "hello"]] (Ok completed_run) all_deleted.

(** The assistant answers in two messages. *)
Definition world_two_messages : World :=
  make_world sample_env (typed_description ++ [lit "none"]) []
    [assistant_says [lit "A"]; assistant_says [lit "draft"; lit "B"]]
    (Ok completed_run) all_deleted.

(** The instructions line is the word None, capitalised, with blanks around. *)
Definition world_capital_none : World :=
  make_world sample_env (typed_description ++ [lit "  None "]) []
    [assistant_says [lit "hello"]] (Ok completed_run) all_deleted.

(** The platform refuses to delete the analysis agent. *)
Definition world_delete_fails : World :=
  make_world sample_env (typed_description ++ [lit "none"]) []
    [assistant_says [lit "hello"]] (Ok completed_run)
    (fun id => if eqb id (lit "asst_process_analysis_agent")
               then Err service_down else Ok tt).

(** The orchestrating model calls the optimization advisor first, on the
    raw description, and the analysis agent afterwards. *)
Definition world_reversed : World :=
  make_world sample_env (typed_description ++ [lit "none"])
    [ {| callee := optimizer_name;
         call_input := lit "Ticket manually logged in spreadsheet";
         call_output := lit "Automation Opportunities: None identified" |};
      {| callee := analysis_name;
         call_input := lit "Ticket manually logged in spreadsheet";
         call_output := lit "Bottlenecks: Manual logging causes delay" |} ]
    [assistant_says [lit "hello"]] (Ok completed_run) all_deleted.

(** The assistant's report carries every mandated heading. *)
Definition complete_report : str :=
  lit "PROCESS ANALYSIS" ++ nl
  ++ lit "Process Steps: 1. Customer submits ticket" ++ nl
  ++ lit "Bottlenecks: Manual logging causes delay" ++ nl
  ++ lit "Tools Involved: email, spreadsheet" ++ nl
  ++ lit "Missing Information: None identified" ++ nl
  ++ lit "OPTIMIZATION RECOMMENDATIONS" ++ nl
  ++ lit "Automation Opportunities: Use ticketing system webhook" ++ nl
  ++ lit "Elimination of Redundant Steps: None identified" ++ nl
  ++ lit "Clearer Ownership: Support lead" ++ nl
  ++ lit "Feasibility Constraints: None identified".

Definition world_complete : World :=
  make_world sample_env (typed_description ++ [lit "none"]) []
    [assistant_says [complete_report]] (Ok completed_run) all_deleted.

(** What that world hands to [json.dump]. *)
Definition capital_none_report : ReportJson :=
  {| timestamp := lit "2025-01-01T12:00:00.000000";
     process_description :=
       lit "Customer submits support ticket via email" ++ nl
       ++ lit "Ticket manually logged in spreadsheet";
     custom_commands := lit "None";
     full_report := lit "hello" |}.

Definition two_messages_report : ReportJson :=
  {| timestamp := lit "2025-01-01T12:00:00.000000";
     process_description :=
       lit "Customer submits support ticket via email" ++ nl
       ++ lit "Ticket manually logged in spreadsheet";
     custom_commands := lit "none";
     full_report := lit "A" ++ nl ++ lit "B" |}.

(** ** [clean_markdown] (lines 18-25) *)

Definition citation_open : char := 12304%N.
Definition citation_close : char := 12305%N.
Definition newline : char := 10%N.

(** The class [[\-\*\+\s]]. *)
Definition is_bullet (c : char) : bool :=
  (c =? 45)%N || (c =? 42)%N || (c =? 43)%N || is_whitespace c.

(** [re.sub(r'<open>[^<close>]*<close>', '', s)] for the two citation
    brackets.  Reading from the left: an opening bracket with a closing one
    somewhere after it starts a match, which runs to the first closing
    bracket; the match is dropped and reading resumes after it.  [inside]
    tells whether the reader is within a match. *)
Fixpoint remove_citations_from (inside : bool) (s : str) : str :=
  match s with
  | [] => []
  | c :: rest =>
      if inside
      then remove_citations_from (negb (c =? citation_close)%N) rest
      else if (c =? citation_open)%N && existsb (N.eqb citation_close) rest
      then remove_citations_from true rest
      else c :: remove_citations_from false rest
  end.

Definition remove_citations (s : str) : str := remove_citations_from false s.

(** [re.sub(r"^[\-\*\+\s]+", "", s)]: without the MULTILINE flag the
    anchor holds at the start of the string only. *)
Fixpoint drop_leading_bullets (s : str) : str :=
  match s with
  | [] => []
  | c :: rest => if is_bullet c then drop_leading_bullets rest else s
  end.

Fixpoint strip_prefix (p s : str) : option str :=
  match p, s with
  | [], _ => Some s
  | x :: p', y :: s' => if (x =? y)%N then strip_prefix p' s' else None
  | _ :: _, [] => None
  end.

Definition strip_suffix (p s : str) : option str :=
  option_map (@rev char) (strip_prefix (rev p) (rev s)).

(** What the group [(.+?)] may hold: at least one character, none of them
    a newline. *)
Definition is_group (x : str) : bool :=
  truthy x && forallb (fun c => negb (c =? newline)%N) x.

(** [re.sub(r"^<marker>(.+?)<marker>$", r"\1", s)] for a marker of
    asterisks.  The pattern is anchored at both ends, and [$] holds at the
    end of the string or just before a newline that ends it; the newline is
    then no part of the match and stays. *)
Definition unwrap (marker : str) (s : str) : str :=
  match strip_prefix marker s with
  | None => s
  | Some rest =>
      match strip_suffix marker rest with
      | Some x => if is_group x then x else s
      | None =>
          match strip_suffix (marker ++ [newline]) rest with
          | Some x => if is_group x then x ++ [newline] else s
          | None => s
          end
      end
  end.

Definition clean_markdown (s : str) : str :=
  let s := strip s in
  let s := remove_citations s in
  let s := drop_leading_bullets s in
  let s := unwrap (lit "**") s in
  let s := unwrap (lit "*") s in
  strip s.

(** A citation the first substitution would match lies in the text. *)
Definition has_citation (s : str) : Prop :=
  exists a b c, s = a ++ citation_open :: b ++ citation_close :: c.

(** The text does not begin with a bullet character or a blank. *)
Definition no_leading_bullet (s : str) : bool :=
  match s with
  | [] => true
  | c :: _ => negb (is_bullet c)
  end.

(** The text does not end with a blank. *)
Definition no_trailing_space (s : str) : bool :=
  match rev s with
  | [] => true
  | c :: _ => negb (is_whitespace c)
  end.

Fixpoint has_citation_b (s : str) : bool :=
  match s with
  | [] => false
  | c :: rest =>
      (c =? citation_open)%N && existsb (N.eqb citation_close) rest
      || has_citation_b rest
  end.

(** The text does not begin with a blank. *)
Definition starts_with_text (s : str) : bool :=
  match s with
  | [] => true
  | c :: _ => negb (is_whitespace c)
  end.

(** ** Further observations *)

(** What [input()] raises on an exhausted console. *)
Definition eof_error : Exn :=
  {| exn_class := EOFError; exn_text := lit "EOF when reading a line" |}.

(** Errors raised by the calls of a trace other than the deletions: the
    platform and file-system calls that answered with an error, and reads
    from an exhausted console. *)
Definition call_failures (t : list Event) : list Exn :=
  flat_map (fun e => match e with
                     | EvInput _ None => [eof_error]
                     | EvCreateAgent _ _ _ _ (Err x) => [x]
                     | EvCreateThread (Err x) => [x]
                     | EvCreateMessage _ _ _ (Err x) => [x]
                     | EvCreateAndProcess _ _ _ (Err x) => [x]
                     | EvMkdir _ (Err x) => [x]
                     | EvOpen _ (Err x) => [x]
                     | _ => []
                     end) t.

(** Ids of the threads the platform created. *)
Definition threads_created (t : list Event) : list str :=
  flat_map (fun e => match e with
                     | EvCreateThread (Ok id) => [id]
                     | _ => []
                     end) t.

(** Thread ids the script passed to the platform. *)
Definition thread_ids_used (t : list Event) : list str :=
  flat_map (fun e => match e with
                     | EvCreateMessage thread_id _ _ _ => [thread_id]
                     | EvCreateAndProcess thread_id _ _ _ => [thread_id]
                     | EvListMessages thread_id _ => [thread_id]
                     | _ => []
                     end) t.

(** Files the script opened for writing, with the answer. *)
Definition opens (t : list Event) : list (Path * Result unit) :=
  flat_map (fun e => match e with
                     | EvOpen p r => [(p, r)]
                     | _ => []
                     end) t.

Definition is_empty_line (l : str) : bool :=
  match l with
  | [] => true
  | _ :: _ => false
  end.

(** A console where the description is ended by an empty line but the
    instructions line never comes. *)
Definition world_no_instructions : World :=
  make_world sample_env typed_description []
    [assistant_says [lit "hello"]] (Ok completed_run) all_deleted.

(** A console that closes while the description is typed. *)
Definition world_console_closed : World :=
  make_world sample_env [lit "Customer submits support ticket via email"] []
    [assistant_says [lit "hello"]] (Ok completed_run) all_deleted.

(** Iterating the listed messages breaks with the error [e]. *)
Definition listing_breaks (w : World) (e : Exn) : Prop :=
  exists n, list_failure w = Some (n, e).

(** The world [w] with other answers for agent creation, for iterating the
    listed messages and for opening files. *)
Definition with_answers (w : World)
    (creates : str -> Result str) (listing : option (nat * Exn))
    (opening : Path -> Result unit) : World :=
  {| getenv := getenv w;
     console_lines := console_lines w;
     create_agent_result := creates;
     create_thread_result := create_thread_result w;
     create_message_result := create_message_result w;
     run_delegations := run_delegations w;
     run_messages := run_messages w;
     create_and_process_result := create_and_process_result w;
     list_failure := listing;
     now_compact := now_compact w;
     now_date := now_date w;
     now_iso := now_iso w;
     mkdir_result := mkdir_result w;
     open_result := opening;
     resolve := resolve w;
     delete_agent_result := delete_agent_result w |}.

Definition disk_full : Exn :=
  {| exn_class := OSError; exn_text := lit "No space left on device" |}.

(** The platform refuses to create the optimization advisor. *)
Definition world_optimizer_refused : World :=
  with_answers world_plain
    (fun name => if eqb name optimizer_name then Err service_down
                 else Ok (lit "asst_" ++ name))
    None (fun _ => Ok tt).

(** Iterating the listed messages breaks after the first message. *)
Definition world_listing_breaks : World :=
  with_answers world_two_messages (create_agent_result world_two_messages)
    (Some (1, service_down)) (fun _ => Ok tt).

(** The Markdown file can be written, the JSON file cannot be opened. *)
Definition world_json_refused : World :=
  with_answers world_plain (create_agent_result world_plain) None
    (fun p => if eqb (last p []) (last (json_path (now_compact world_plain)) [])
              then Err disk_full else Ok tt).

(** The run comes back while still in progress. *)
Definition world_in_progress : World :=
  make_world sample_env (typed_description ++ [lit "none"]) []
    [assistant_says [lit "partial"]]
    (Ok {| status := InProgress; last_error := None |}) all_deleted.

Definition plain_report : ReportJson :=
  {| timestamp := lit "2025-01-01T12:00:00.000000";
     process_description :=
       lit "Customer submits support ticket via email" ++ nl
       ++ lit "Ticket manually logged in spreadsheet";
     custom_commands := lit "none";
     full_report := lit "hello" |}.
(** * Supporting lemmas *)

(** ** Python strings *)

Lemma eqb_eq (a b : str) : eqb a b = true <-> a = b.
Proof.
  revert b; induction a as [|x a IH]; intros [|y b]; simpl; split;
    try congruence; try discriminate; try reflexivity.
  - intros H. apply andb_true_iff in H as [Hx Hr].
    apply N.eqb_eq in Hx. apply IH in Hr. congruence.
  - intros H. injection H as -> ->. rewrite N.eqb_refl. simpl. now apply IH.
Qed.

Lemma eqb_refl (a : str) : eqb a a = true.
Proof. now apply eqb_eq. Qed.

Lemma eqb_neq (a b : str) : eqb a b = false <-> a <> b.
Proof.
  split.
  - intros H E. apply eqb_eq in E. congruence.
  - intros H. destruct (eqb a b) eqn:E; [apply eqb_eq in E; contradiction | reflexivity].
Qed.

Lemma lstrip_nil_iff (s : str) : lstrip s = [] <-> forallb is_whitespace s = true.
Proof.
  induction s as [|c s IH]; simpl; [tauto|].
  destruct (is_whitespace c); simpl; [exact IH|].
  split; discriminate.
Qed.

Lemma lstrip_all_space (s : str) :
  forallb is_whitespace s = true -> lstrip s = [].
Proof. apply lstrip_nil_iff. Qed.

(** A string strips to nothing exactly when it is empty or all whitespace. *)
Lemma strip_nil_iff (s : str) : strip s = [] <-> forallb is_whitespace s = true.
Proof.
  unfold strip, rstrip. split.
  - intros H. apply lstrip_nil_iff.
    destruct (lstrip s) as [|c r] eqn:E; [reflexivity|].
    exfalso.
    assert (Hc : is_whitespace c = false).
    { clear H. induction s as [|d s IH]; simpl in E; [discriminate|].
      destruct (is_whitespace d) eqn:Ed; [now apply IH|].
      injection E as <- _. exact Ed. }
    apply (f_equal (@rev char)) in H. rewrite rev_involutive in H.
    change (rev []) with (@nil char) in H.
    apply lstrip_nil_iff in H.
    rewrite forallb_forall in H.
    specialize (H c). rewrite <- in_rev in H.
    rewrite H in Hc; [discriminate | now left].
  - intros H. apply lstrip_nil_iff in H. now rewrite H.
Qed.

(** ** Tests on texts the script performs *)

Lemma failed_status (st : RunStatus) :
  eqb (status_value st) (lit "failed") = true <-> st = Failed.
Proof. destruct st; vm_compute; split; congruence. Qed.

Lemma assistant_role (r : MessageRole) :
  eqb (role_value r) (lit "assistant")
  = match r with AGENT => true | USER => false end.
Proof. now destruct r. Qed.

Lemma collected_final_segments (thread : list Message) :
  flat_map collected thread = report_texts thread.
Proof.
  unfold report_texts.
  induction thread as [|m thread IH]; [reflexivity|].
  cbn [flat_map filter]. rewrite IH.
  unfold collected, is_assistant, has_text.
  rewrite assistant_role.
  destruct (role m); [reflexivity|].
  destruct (text_messages m) as [|seg segs] eqn:E; [reflexivity|].
  cbn [andb map app].
  change (final_segment m) with (last (text_messages m) []).
  rewrite E. reflexivity.
Qed.

Lemma instructions_prompt_not_empty : instructions_prompt <> [].
Proof. discriminate. Qed.

Lemma normalise_commands_sentinel (raw : str) :
  is_sentinel (strip raw) = true -> normalise_commands raw = none_word.
Proof.
  unfold is_sentinel, normalise_commands.
  destruct (strip raw) as [|c s]; [reflexivity|].
  cbn [truthy orb]. change (eqb (c :: s) []) with false. cbn [orb].
  intros H. now apply eqb_eq in H.
Qed.

Lemma normalise_commands_kept (raw : str) :
  is_sentinel (strip raw) = false -> normalise_commands raw = strip raw.
Proof.
  unfold is_sentinel, normalise_commands.
  destruct (strip raw) as [|c s]; [discriminate|reflexivity].
Qed.

Lemma normalise_commands_test (raw : str) :
  negb (eqb (normalise_commands raw) none_word) = negb (is_sentinel (strip raw)).
Proof.
  destruct (is_sentinel (strip raw)) eqn:E.
  - rewrite (normalise_commands_sentinel raw E). now rewrite eqb_refl.
  - rewrite (normalise_commands_kept raw E).
    unfold is_sentinel in E. apply orb_false_iff in E as [_ E]. now rewrite E.
Qed.

(** The posted message, by what the instructions line strips to. *)
Lemma user_message_sentinel (d raw : str) :
  user_message d (normalise_commands raw)
  = if is_sentinel (strip raw) then message_without d
    else message_with d (strip raw).
Proof.
  unfold user_message. rewrite normalise_commands_test.
  destruct (is_sentinel (strip raw)) eqn:E; cbn [negb].
  - unfold message_without. now rewrite <- !app_assoc.
  - rewrite (normalise_commands_kept raw E).
    unfold message_with. now rewrite <- !app_assoc.
Qed.

(** The texts of the script stay folded while the script is followed. *)
Opaque lit nl endash clipboard magnifier folder check_mark banner
  describe_prompt no_description_msg instructions_prompt analysing_msg
  cleaning_msg done_msg none_word analysis_instructions optimizer_instructions
  orchestrator_instructions analysis_name optimizer_name orchestrator_name
  ENDPOINT_KEY MODEL_KEY strip eqb join user_message normalise_commands
  md_path json_path out_dir.
(** ** The cleanup block *)

Section Cleanup.

Variable w : World.

Lemma cleanup_loop (agents : list (option Agent)) (s : State) :
  for_each agents (fun agent =>
    match agent with
    | Some a =>
        try_except (delete_agent w (agent_id a))
          (fun e => print (lit "Warning: could not delete agent " ++ agent_id a
                           ++ lit ": " ++ exn_text e))
    | None => ret tt
    end) s
  = (Normal tt, s, flat_map (delete_round w) agents).
Proof.
  revert s; induction agents as [|agent agents IH]; intros s; [reflexivity|].
  cbn [for_each flat_map]. unfold bind at 1.
  destruct agent as [a|].
  - unfold try_except, delete_agent, call, delete_round, print, emit.
    destruct (delete_agent_result w (agent_id a)) as [[]|e];
      rewrite IH; reflexivity.
  - unfold ret. rewrite IH. reflexivity.
Qed.

(** The whole block: it falls through, leaves the state alone, and its
    events are the two fixed lines around one round per variable. *)
Lemma cleanup_run (s : State) :
  cleanup w s
  = (Normal tt, s,
     EvPrint cleaning_msg
     :: flat_map (delete_round w)
          [orchestrator s; analysis_agent s; optimizer_agent s]
     ++ [EvPrint done_msg]).
Proof.
  unfold cleanup, bind, agents_to_clean, print, emit.
  rewrite cleanup_loop. reflexivity.
Qed.

Lemma delete_attempts_round (agent : option Agent) :
  delete_attempts (delete_round w agent)
  = match agent with Some a => [agent_id a] | None => [] end.
Proof.
  destruct agent as [a|]; [|reflexivity].
  unfold delete_round.
  destruct (delete_agent_result w (agent_id a)); reflexivity.
Qed.

Lemma created_ids_round (agent : option Agent) :
  created_ids (delete_round w agent) = [].
Proof.
  destruct agent as [a|]; [|reflexivity].
  unfold delete_round.
  destruct (delete_agent_result w (agent_id a)); reflexivity.
Qed.

End Cleanup.

(** ** The two loops of the session *)

Lemma collect_loop (msgs : list Message) (acc : list str) (s : State) :
  for_fold msgs acc (fun assistant_texts m =>
    if eqb (role_value (role m)) (lit "assistant")
       && match text_messages m with [] => false | _ :: _ => true end
    then let text := last (text_messages m) [] in
         print text ;; ret (assistant_texts ++ [text])
    else ret assistant_texts) s
  = (Normal (acc ++ flat_map collected msgs), s,
     map EvPrint (flat_map collected msgs)).
Proof.
  revert acc s; induction msgs as [|m msgs IH]; intros acc s.
  - cbn [for_fold flat_map map]. now rewrite app_nil_r.
  - cbn [for_fold flat_map]. unfold bind at 1. unfold collected at 1 3.
    destruct (eqb (role_value (role m)) (lit "assistant")
              && match text_messages m with [] => false | _ :: _ => true end).
    + unfold bind, print, emit, ret. rewrite IH.
      rewrite <- app_assoc. reflexivity.
    + unfold ret. rewrite IH. reflexivity.
Qed.

Lemma input_loop_console (pending acc : list str) :
  forallb is_console_event (snd (input_loop_from pending acc)) = true.
Proof.
  revert acc; induction pending as [|line rest IH]; intros acc; [reflexivity|].
  cbn [input_loop_from]. destruct (eqb line []); [reflexivity|].
  specialize (IH (acc ++ [line])).
  destruct (input_loop_from rest (acc ++ [line])) as [[o r] t]. exact IH.
Qed.

Lemma input_loop_not_returned (pending acc : list str) :
  fst (fst (input_loop_from pending acc)) <> Returned.
Proof.
  revert acc; induction pending as [|line rest IH]; intros acc; [discriminate|].
  cbn [input_loop_from]. destruct (eqb line []); [discriminate|].
  specialize (IH (acc ++ [line])).
  destruct (input_loop_from rest (acc ++ [line])) as [[o r] t]. exact IH.
Qed.

(** One round of the loop, as the source writes it. *)
Lemma input_loop_unfold (process_lines : list str) (s : State) :
  input_loop process_lines s
  = (line <- input [] ;;
     if eqb line [] then ret process_lines
     else input_loop (process_lines ++ [line])) s.
Proof.
  unfold input_loop, bind, input.
  destruct (pending_input s) as [|line rest] eqn:E; cbn [input_loop_from].
  - unfold set_pending_input. rewrite <- E. now destruct s.
  - destruct (eqb line []).
    + reflexivity.
    + cbn [pending_input].
      destruct (input_loop_from rest (process_lines ++ [line])) as [[o r] t].
      reflexivity.
Qed.

(** ** Running the script step by step *)

Section Steps.

Variable w : World.
Variables A B : Type.

Lemma run_bind_ret (a : A) (f : A -> M B) (s : State) :
  bind (ret a) f s = f a s.
Proof. unfold bind, ret. now destruct (f a s) as [[o s'] t]. Qed.

Lemma run_bind_emit (e : Event) (f : unit -> M B) (s : State) :
  bind (emit e) f s = after [e] (f tt s).
Proof. unfold bind, emit, after. now destruct (f tt s) as [[o s'] t]. Qed.

Lemma run_bind_print (text : str) (f : unit -> M B) (s : State) :
  bind (print text) f s = after [EvPrint text] (f tt s).
Proof. apply run_bind_emit. Qed.

Lemma run_bind_write (p : Path) (chunk : str) (f : unit -> M B) (s : State) :
  bind (write p chunk) f s = after [EvWrite p chunk] (f tt s).
Proof. apply run_bind_emit. Qed.

Lemma run_bind_raise (e : Exn) (f : A -> M B) (s : State) :
  bind (raise e) f s = (Raised e, s, []).
Proof. reflexivity. Qed.

Lemma run_bind_call (r : Result A) (ev : Event) (f : A -> M B) (s : State) :
  bind (call r ev) f s
  = match r with
    | Ok a => after [ev] (f a s)
    | Err e => (Raised e, s, [ev])
    end.
Proof.
  unfold bind, call, after. destruct r as [a|e]; [|reflexivity].
  now destruct (f a s) as [[o s'] t].
Qed.

Lemma run_bind_input (prompt : str) (f : str -> M B) (s : State) :
  bind (input prompt) f s
  = match pending_input s with
    | [] => (Raised {| exn_class := EOFError;
                       exn_text := lit "EOF when reading a line" |},
             s, [EvInput prompt None])
    | line :: rest =>
        after [EvInput prompt (Some line)] (f line (set_pending_input rest s))
    end.
Proof.
  unfold bind, input, after, set_pending_input.
  destruct (pending_input s) as [|line rest]; [reflexivity|].
  match goal with |- context [f line ?s'] => now destruct (f line s') as [[o s''] t] end.
Qed.

Lemma run_bind_input_loop (acc : list str) (f : list str -> M B) (s : State) :
  bind (input_loop acc) f s
  = match input_loop_from (pending_input s) acc with
    | (Normal process_lines, rest, t) =>
        after t (f process_lines (set_pending_input rest s))
    | (Returned, rest, t) => (Returned, set_pending_input rest s, t)
    | (Raised e, rest, t) => (Raised e, set_pending_input rest s, t)
    end.
Proof.
  unfold bind, input_loop, after.
  destruct (input_loop_from (pending_input s) acc) as [[[pl| |e] rest] t];
    try reflexivity.
  now destruct (f pl (set_pending_input rest s)) as [[o s'] t'].
Qed.

Lemma run_bind_collect (msgs : list Message) (f : list str -> M B) (s : State) :
  bind (for_fold msgs [] (fun assistant_texts m =>
          if eqb (role_value (role m)) (lit "assistant")
             && match text_messages m with [] => false | _ :: _ => true end
          then let text := last (text_messages m) [] in
               print text ;; ret (assistant_texts ++ [text])
          else ret assistant_texts)) f s
  = after (map EvPrint (flat_map collected msgs))
          (f (flat_map collected msgs) s).
Proof.
  unfold bind at 1. rewrite collect_loop. unfold after. cbn [app].
  now destruct (f (flat_map collected msgs) s) as [[o s'] t].
Qed.

End Steps.

Section StepsUnit.

Variable w : World.
Variable B : Type.

Lemma run_bind_create_agent (model name instructions : str)
    (tools : list ToolDefinition) (f : Agent -> M B) (s : State) :
  bind (create_agent w model name instructions tools) f s
  = match create_agent_result w name with
    | Ok id =>
        after [EvCreateAgent model name instructions tools (Ok id)]
          (f {| agent_id := id; agent_name := name; agent_model := model;
                agent_instructions := instructions; agent_tools := tools |} s)
    | Err e =>
        (Raised e, s, [EvCreateAgent model name instructions tools (Err e)])
    end.
Proof.
  unfold create_agent, bind, call, ret, after.
  destruct (create_agent_result w name) as [id|e]; [|reflexivity].
  match goal with |- context [f ?a s] => destruct (f a s) as [[o s'] t] end.
  reflexivity.
Qed.

Lemma run_bind_assign_analysis (a : Agent) (f : unit -> M B) (s : State) :
  bind (assign_analysis_agent a) f s
  = f tt {| pending_input := pending_input s; thread_log := thread_log s;
            orchestrator := orchestrator s; analysis_agent := Some a;
            optimizer_agent := optimizer_agent s |}.
Proof.
  unfold bind, assign_analysis_agent.
  match goal with |- context [f tt ?s'] => now destruct (f tt s') as [[o s''] t] end.
Qed.

Lemma run_bind_assign_optimizer (a : Agent) (f : unit -> M B) (s : State) :
  bind (assign_optimizer_agent a) f s
  = f tt {| pending_input := pending_input s; thread_log := thread_log s;
            orchestrator := orchestrator s; analysis_agent := analysis_agent s;
            optimizer_agent := Some a |}.
Proof.
  unfold bind, assign_optimizer_agent.
  match goal with |- context [f tt ?s'] => now destruct (f tt s') as [[o s''] t] end.
Qed.

Lemma run_bind_assign_orchestrator (a : Agent) (f : unit -> M B) (s : State) :
  bind (assign_orchestrator a) f s
  = f tt {| pending_input := pending_input s; thread_log := thread_log s;
            orchestrator := Some a; analysis_agent := analysis_agent s;
            optimizer_agent := optimizer_agent s |}.
Proof.
  unfold bind, assign_orchestrator.
  match goal with |- context [f tt ?s'] => now destruct (f tt s') as [[o s''] t] end.
Qed.

Lemma run_bind_threads_create (f : str -> M B) (s : State) :
  bind (threads_create w) f s
  = match create_thread_result w with
    | Ok id => after [EvCreateThread (Ok id)] (f id s)
    | Err e => (Raised e, s, [EvCreateThread (Err e)])
    end.
Proof.
  unfold threads_create. rewrite run_bind_call.
  now destruct (create_thread_result w).
Qed.

Lemma run_bind_messages_create (thread_id : str) (r : MessageRole)
    (content : str) (f : unit -> M B) (s : State) :
  bind (messages_create w thread_id r content) f s
  = match create_message_result w with
    | Ok u =>
        after [EvCreateMessage thread_id r content (Ok u)]
          (f tt (set_thread_log
                   (thread_log s ++ [{| role := r; text_messages := [content] |}]) s))
    | Err e => (Raised e, s, [EvCreateMessage thread_id r content (Err e)])
    end.
Proof.
  unfold bind, messages_create, after.
  destruct (create_message_result w) as [u|e]; [|reflexivity].
  match goal with |- context [f tt ?s'] => now destruct (f tt s') as [[o s''] t] end.
Qed.

Lemma run_bind_create_and_process (thread_id agent_id : str)
    (f : Run -> M B) (s : State) :
  bind (create_and_process w thread_id agent_id) f s
  = match create_and_process_result w with
    | Ok r =>
        after [EvCreateAndProcess thread_id agent_id (run_delegations w) (Ok r)]
          (f r (set_thread_log (thread_log s ++ run_messages w) s))
    | Err e =>
        (Raised e, set_thread_log (thread_log s ++ run_messages w) s,
         [EvCreateAndProcess thread_id agent_id (run_delegations w) (Err e)])
    end.
Proof.
  unfold bind, create_and_process, after.
  destruct (create_and_process_result w) as [r|e]; [|reflexivity].
  match goal with |- context [f r ?s'] => now destruct (f r s') as [[o s''] t] end.
Qed.

Lemma run_bind_messages_list (thread_id : str) (f : Paged -> M B) (s : State) :
  bind (messages_list w thread_id ASCENDING) f s
  = after [EvListMessages thread_id ASCENDING]
      (f match list_failure w with
         | None => {| items := thread_log s; broken := None |}
         | Some (n, e) => {| items := firstn n (thread_log s); broken := Some e |}
         end s).
Proof.
  unfold bind, messages_list, after.
  match goal with |- context [f ?p s] => now destruct (f p s) as [[o s'] t] end.
Qed.

Lemma run_bind_mkdir (p : Path) (f : unit -> M B) (s : State) :
  bind (mkdir w p) f s
  = match mkdir_result w with
    | Ok u => after [EvMkdir p (Ok u)] (f u s)
    | Err e => (Raised e, s, [EvMkdir p (Err e)])
    end.
Proof.
  unfold mkdir. rewrite run_bind_call. now destruct (mkdir_result w).
Qed.

Lemma run_bind_open_write (p : Path) (f : unit -> M B) (s : State) :
  bind (open_write w p) f s
  = match open_result w p with
    | Ok u => after [EvOpen p (Ok u)] (f u s)
    | Err e => (Raised e, s, [EvOpen p (Err e)])
    end.
Proof.
  unfold open_write. rewrite run_bind_call. now destruct (open_result w p).
Qed.

End StepsUnit.

Lemma run_print (text : str) (s : State) :
  print text s = (Normal tt, s, [EvPrint text]).
Proof. reflexivity. Qed.

Lemma run_return (A : Type) (s : State) : @return_ A s = (Returned, s, []).
Proof. reflexivity. Qed.

Ltac run_rewrite :=
  first
  [ rewrite run_bind_print
  | rewrite run_bind_write
  | rewrite run_bind_emit
  | rewrite run_bind_ret
  | rewrite run_bind_raise
  | rewrite run_bind_input_loop
  | rewrite run_bind_input
  | rewrite run_bind_create_agent
  | rewrite run_bind_assign_analysis
  | rewrite run_bind_assign_optimizer
  | rewrite run_bind_assign_orchestrator
  | rewrite run_bind_threads_create
  | rewrite run_bind_messages_create
  | rewrite run_bind_create_and_process
  | rewrite run_bind_messages_list
  | rewrite run_bind_collect
  | rewrite run_bind_mkdir
  | rewrite run_bind_open_write
  | rewrite run_print
  | rewrite run_return ].

(** Case analysis on the answer the script is waiting for. *)
Ltac run_case :=
  match goal with
  | |- context [match input_loop_from ?p ?a with _ => _ end] =>
      let E := fresh "Eloop" in
      destruct (input_loop_from p a) as [[[?process_lines| |?e] ?rest] ?tin] eqn:E
  | |- context [match ?r with Ok _ => _ | Err _ => _ end] =>
      let E := fresh "Ecall" in destruct r eqn:E
  | |- context [(if ?b then _ else _) ?s] =>
      let E := fresh "Etest" in destruct b eqn:E
  | |- context [bind (if ?b then _ else _) _ _] =>
      let E := fresh "Etest" in destruct b eqn:E
  | |- context [match ?l with [] => _ | _ :: _ => _ end] =>
      let E := fresh "Epending" in destruct l eqn:E
  | |- context [list_failure ?w] =>
      let E := fresh "Elist" in destruct (list_failure w) as [[? ?]|] eqn:E
  end.

Ltac run_simpl :=
  cbn beta iota delta [pending_input thread_log orchestrator analysis_agent
       optimizer_agent set_pending_input set_thread_log initial_state items
       broken agent_id].

(** Follow the script along every path. *)
Ltac run_script :=
  repeat (run_simpl; first [run_rewrite | run_case]);
  cbn [after fst snd app].

(** ** How observations distribute over a trace *)

Section Observations.

Variable X : Type.
Variable f : Event -> list X.

Lemma observe_inputs (ls : list (option str)) :
  flat_map f (map (EvInput []) ls) = flat_map (fun l => f (EvInput [] l)) ls.
Proof.
  induction ls as [|l ls IH]; [reflexivity|].
  cbn [map flat_map]. now rewrite IH.
Qed.

Lemma observe_prints (texts : list str) :
  flat_map f (map EvPrint texts) = flat_map (fun x => f (EvPrint x)) texts.
Proof.
  induction texts as [|x texts IH]; [reflexivity|].
  cbn [map flat_map]. now rewrite IH.
Qed.

End Observations.

Lemma flat_map_nothing {X Y : Type} (l : list X) :
  flat_map (fun _ : X => @nil Y) l = [].
Proof. induction l; [reflexivity | assumption]. Qed.

Lemma flat_map_each {X : Type} (l : list X) : flat_map (fun x => [x]) l = l.
Proof. induction l as [|x l IH]; [reflexivity|]. cbn [flat_map app]. now rewrite IH. Qed.

(** The input loop only reads lines, all with an empty prompt. *)
Lemma input_loop_shape (pending acc : list str) :
  exists ls, snd (input_loop_from pending acc) = map (EvInput []) ls.
Proof.
  revert acc; induction pending as [|line rest IH]; intros acc.
  - exists [None]. reflexivity.
  - cbn [input_loop_from]. destruct (eqb line []).
    + exists [Some line]. reflexivity.
    + destruct (IH (acc ++ [line])) as [ls Hls].
      destruct (input_loop_from rest (acc ++ [line])) as [[o r] t].
      exists (Some line :: ls). cbn [snd] in *. now rewrite Hls.
Qed.

Lemma invoke_unconfigured (w : World) :
  env_truthy (getenv w ENDPOINT_KEY) = false
  \/ env_truthy (getenv w MODEL_KEY) = false ->
  invoke w = (Raised config_error, initial_state w, [EvClearScreen]).
Proof.
  intros H. unfold invoke, run_process_advisor.
  rewrite run_bind_emit.
  destruct H as [H|H]; rewrite H; cbn [negb orb]; [reflexivity|].
  now rewrite orb_true_r.
Qed.

Lemma invoke_configured (w : World) :
  env_truthy (getenv w ENDPOINT_KEY) = true ->
  env_truthy (getenv w MODEL_KEY) = true ->
  let r := session w (str_of_option (getenv w MODEL_KEY)) (initial_state w) in
  invoke w
  = (fst (fst r), snd (fst r),
     EvClearScreen :: snd r ++ cleanup_events w (snd (fst r))).
Proof.
  intros H1 H2 r. unfold invoke, run_process_advisor.
  rewrite run_bind_emit.
  rewrite H1, H2. cbn [negb orb].
  unfold try_finally. fold r. destruct r as [[o s1] t1].
  rewrite cleanup_run. reflexivity.
Qed.

Ltac cleanup_cases s :=
  unfold cleanup_events, tracked, delete_round;
  destruct (orchestrator s) as [?a|], (analysis_agent s) as [?a|],
           (optimizer_agent s) as [?a|];
  cbn [flat_map app];
  repeat match goal with
         | |- context [delete_agent_result ?w ?id] =>
             destruct (delete_agent_result w id) as [[]|?e] eqn:?
         end.

(** Observations that ignore console lines and deletions see nothing in
    the cleanup block. *)
Lemma observe_cleanup {X : Type} (f : Event -> list X) (w : World) (s : State) :
  (forall text, f (EvPrint text) = []) ->
  (forall id r, f (EvDeleteAgent id r) = []) ->
  flat_map f (cleanup_events w s) = [].
Proof.
  intros Hp Hd. cleanup_cases s; cbn [flat_map app];
    rewrite ?Hp, ?Hd; reflexivity.
Qed.

Ltac shape_inputs :=
  repeat match goal with
  | E : input_loop_from ?p ?a = (_, _, ?t) |- _ =>
      let ls := fresh "ls" in
      let Hls := fresh "Hls" in
      destruct (input_loop_shape p a) as [ls Hls];
      rewrite E in Hls; cbn [snd] in Hls; subst t; clear E
  end.

Ltac observe :=
  unfold created_ids, delete_attempts, printed, delegated_calls, run_results,
         json_dumps, written, posted, list_orders, answers, agent_creations,
         run_starts,
         beyond_console, file_events;
  repeat first
    [ progress cbn [flat_map app is_console_event is_file_event]
    | rewrite flat_map_app
    | rewrite observe_inputs
    | rewrite observe_prints
    | rewrite flat_map_nothing
    | rewrite flat_map_each
    | match goal with
      | |- context [flat_map ?f (cleanup_events ?w ?s)] =>
          rewrite (@observe_cleanup _ f w s) by (intros; reflexivity)
      end
    | rewrite app_nil_r ].

Ltac observe_in H :=
  unfold created_ids, delete_attempts, printed, delegated_calls, run_results,
         json_dumps, written, posted, list_orders, answers, agent_creations,
         run_starts,
         beyond_console, file_events in H;
  repeat first
    [ progress cbn [flat_map app is_console_event is_file_event] in H
    | rewrite flat_map_app in H
    | rewrite observe_inputs in H
    | rewrite observe_prints in H
    | rewrite flat_map_nothing in H
    | rewrite flat_map_each in H
    | match type of H with
      | context [flat_map ?f (cleanup_events ?w ?s)] =>
          rewrite (@observe_cleanup _ f w s) in H by (intros; reflexivity)
      end
    | rewrite app_nil_r in H ].

(** Follow the session of the goal along every path, once. *)
Ltac explore_session :=
  match goal with
  | |- context [session ?w ?m ?s] =>
      let E := fresh "Esession" in
      let Ho := fresh "Ho" in
      let Hs := fresh "Hs" in
      let Ht := fresh "Ht" in
      destruct (session w m s) as [[?o ?s1] ?t1] eqn:E;
      revert E; unfold session; run_script;
      intros E; injection E as Ho Hs Ht; subst;
      cbn [fst snd orchestrator analysis_agent optimizer_agent
           set_thread_log set_pending_input]
  end.

(** Follow a whole invocation: the two ways the configuration check can
    fail, then every path of the session. *)
Ltac explore_invoke w :=
  unfold trace_of, outcome_of;
  let Hep := fresh "Hendpoint" in
  let Hmd := fresh "Hmodel" in
  destruct (env_truthy (getenv w ENDPOINT_KEY)) eqn:Hep;
  [ destruct (env_truthy (getenv w MODEL_KEY)) eqn:Hmd;
    [ rewrite (invoke_configured w Hep Hmd); cbn zeta; explore_session
    | rewrite (invoke_unconfigured w (or_intror Hmd)); cbn [fst snd] ]
  | rewrite (invoke_unconfigured w (or_introl Hep)); cbn [fst snd] ].

(** ** Tracking and deleting the created definitions *)

(** The session deletes nothing, and the agents bound to the three local
    variables when it ends are the ones the platform created. *)
Lemma session_tracks (w : World) (m : str) :
  let r := session w m (initial_state w) in
  delete_attempts (snd r) = []
  /\ Permutation (map agent_id (tracked (snd (fst r)))) (created_ids (snd r)).
Proof.
  cbn zeta. explore_session; shape_inputs; observe;
    (split; [reflexivity|]); unfold tracked; cbn [flat_map app map agent_id];
    try apply Permutation_refl.
  all: apply (Permutation_cons_append [_; _]).
Qed.

Lemma cleanup_events_deletes (w : World) (s : State) :
  delete_attempts (cleanup_events w s) = map agent_id (tracked s).
Proof. cleanup_cases s; reflexivity. Qed.

Lemma cleanup_events_creates (w : World) (s : State) :
  created_ids (cleanup_events w s) = [].
Proof. cleanup_cases s; reflexivity. Qed.

Lemma delete_attempts_app (t1 t2 : list Event) :
  delete_attempts (t1 ++ t2) = delete_attempts t1 ++ delete_attempts t2.
Proof. apply flat_map_app. Qed.

Lemma created_ids_app (t1 t2 : list Event) :
  created_ids (t1 ++ t2) = created_ids t1 ++ created_ids t2.
Proof. apply flat_map_app. Qed.

(** A failed deletion is followed by its warning. *)
Lemma delete_round_logged (w : World) (agent : option Agent) (id : str) (e : Exn) :
  In (EvDeleteAgent id (Err e)) (delete_round w agent) ->
  In (delete_warning id e) (printed (delete_round w agent)).
Proof.
  destruct agent as [a|]; [|intros []].
  unfold delete_round.
  destruct (delete_agent_result w (agent_id a)) as [u|e'] eqn:E.
  - intros [H|[]]. discriminate H.
  - intros [H|[H|[]]]; [|discriminate H].
    injection H as <- <-. now left.
Qed.


(** * Properties of an invocation *)

Unset Implicit Arguments.

(** C3.  Whatever the outcome of an invocation (the session falls through,
    returns early after a failed run, or raises anywhere), the ids the
    script tries to delete are, counted with multiplicity, the ids of the
    agent definitions the platform created: one attempt for each created
    definition, none skipped and none repeated. *)
Theorem C3_cleanup_totality (w : World) :
  Permutation (delete_attempts (trace_of w)) (created_ids (trace_of w)).
Proof.
  unfold trace_of.
  destruct (env_truthy (getenv w ENDPOINT_KEY)) eqn:Hep;
    [destruct (env_truthy (getenv w MODEL_KEY)) eqn:Hmd|].
  - rewrite (invoke_configured w Hep Hmd). cbn zeta. cbn [snd].
    destruct (session_tracks w (str_of_option (getenv w MODEL_KEY))) as [Hd Hc].
    change (delete_attempts (EvClearScreen :: ?t)) with (delete_attempts t).
    change (created_ids (EvClearScreen :: ?t)) with (created_ids t).
    rewrite delete_attempts_app, created_ids_app, Hd.
    rewrite cleanup_events_deletes, cleanup_events_creates, app_nil_r.
    exact Hc.
  - rewrite (invoke_unconfigured w (or_intror Hmd)). apply Permutation_refl.
  - rewrite (invoke_unconfigured w (or_introl Hep)). apply Permutation_refl.
Qed.

(** C4.  The cleanup block, from any state and whatever the platform
    answers to the deletions: it falls through (nothing is raised), it
    attempts every definition bound to the three variables, failed
    attempts notwithstanding, and each failed attempt is logged on the
    console as a warning.  Hence the outcome of an invocation is that of
    the configuration check or of the session, never one of the cleanup. *)
Theorem C4_cleanup_best_effort (w : World) :
  (forall s, fst (fst (cleanup w s)) = Normal tt)
  /\ (forall s, delete_attempts (snd (cleanup w s)) = map agent_id (tracked s))
  /\ (forall s id e,
        In (EvDeleteAgent id (Err e)) (snd (cleanup w s)) ->
        In (delete_warning id e) (printed (snd (cleanup w s))))
  /\ outcome_of w
     = if env_truthy (getenv w ENDPOINT_KEY) && env_truthy (getenv w MODEL_KEY)
       then fst (fst (session w (str_of_option (getenv w MODEL_KEY))
                              (initial_state w)))
       else Raised config_error.
Proof.
  repeat split.
  - intros s. now rewrite cleanup_run.
  - intros s. rewrite cleanup_run. cbn [snd]. apply cleanup_events_deletes.
  - intros s id e. rewrite cleanup_run. cbn [snd]. intros H.
    destruct H as [H|H]; [discriminate H|].
    apply in_app_or in H as [H|[H|[]]]; [|discriminate H].
    apply in_flat_map in H as [agent [Hagent H]].
    apply delete_round_logged in H.
    apply in_flat_map in H as [ev [Hev H]].
    apply in_flat_map. exists ev. split; [|exact H].
    right. apply in_or_app. left.
    apply in_flat_map. now exists agent.
  - unfold outcome_of.
    destruct (env_truthy (getenv w ENDPOINT_KEY)) eqn:Hep;
      [destruct (env_truthy (getenv w MODEL_KEY)) eqn:Hmd|]; cbn [andb].
    + now rewrite (invoke_configured w Hep Hmd).
    + now rewrite (invoke_unconfigured w (or_intror Hmd)).
    + now rewrite (invoke_unconfigured w (or_introl Hep)).
Qed.

(** C6.  When the endpoint or the model deployment setting is absent, the
    invocation raises the configuration error right after clearing the
    screen: no agent, thread or run has been created, and the cleanup
    block, which lies inside the [try] the script never entered, does not
    run. *)
Theorem C6_missing_configuration (w : World) :
  getenv w ENDPOINT_KEY = None \/ getenv w MODEL_KEY = None ->
  outcome_of w = Raised config_error
  /\ exn_class config_error = RuntimeError
  /\ trace_of w = [EvClearScreen].
Proof.
  intros H. unfold outcome_of, trace_of.
  rewrite invoke_unconfigured; [now repeat split|].
  destruct H as [H|H]; rewrite H; auto.
Qed.

Lemma C6_missing_configuration_witness :
  outcome_of world_unconfigured = Raised config_error
  /\ exn_class config_error = RuntimeError
  /\ trace_of world_unconfigured = [EvClearScreen].
Proof. apply C6_missing_configuration. left. reflexivity. Defined.

(** C5.  When the description typed at the console is empty or made of
    whitespace only, the invocation returns; every event of its trace is
    console traffic (so no agent, thread, run, message or file was created)
    and the console shows the banner, the prompt, the notice that no
    description was given and the two lines of the cleanup block. *)
Theorem C5_blank_description (w : World) (d : str) :
  env_truthy (getenv w ENDPOINT_KEY) = true ->
  env_truthy (getenv w MODEL_KEY) = true ->
  entered_description w = Some d ->
  forallb is_whitespace d = true ->
  outcome_of w = Returned
  /\ beyond_console (trace_of w) = []
  /\ printed (trace_of w)
     = [banner; describe_prompt; no_description_msg; cleaning_msg; done_msg].
Proof.
  intros Hep Hmd Hd Hblank. unfold outcome_of, trace_of.
  rewrite (invoke_configured w Hep Hmd). cbn zeta.
  unfold entered_description in Hd.
  unfold session.
  rewrite !run_bind_print, run_bind_input_loop.
  cbn [pending_input initial_state].
  destruct (input_loop_from (console_lines w) []) as [[[pl| |e] rest] tin] eqn:Eloop;
    try discriminate Hd.
  injection Hd as <-.
  apply strip_nil_iff in Hblank. rewrite Hblank. cbn [truthy negb].
  rewrite run_bind_print, run_return.
  cbn [after fst snd app orchestrator analysis_agent optimizer_agent
       set_pending_input initial_state].
  shape_inputs. unfold cleanup_events, delete_round. observe.
  now repeat split.
Qed.

Lemma C5_blank_description_witness :
  outcome_of world_blank = Returned
  /\ beyond_console (trace_of world_blank) = []
  /\ printed (trace_of world_blank)
     = [banner; describe_prompt; no_description_msg; cleaning_msg; done_msg].
Proof.
  apply (C5_blank_description world_blank (lit "   " ++ nl ++ [9%N]));
    reflexivity.
Defined.

Lemma C4_cleanup_best_effort_witness :
  In (delete_warning (lit "asst_process_analysis_agent") service_down)
     (printed (snd (cleanup world_delete_fails
                            (snd (fst (invoke world_delete_fails)))))).
Proof.
  apply (proj1 (proj2 (proj2 (C4_cleanup_best_effort world_delete_fails)))).
  vm_compute. right. right. left. reflexivity.
Defined.

(** A run that came back failed contradicts a status test that said
    otherwise. *)
Ltac status_clash :=
  match goal with
  | Hst : status ?r = Failed,
    Htest : eqb (status_value (status ?r)) (lit "failed") = false |- _ =>
      apply failed_status in Hst; rewrite Hst in Htest; discriminate Htest
  end.

(** Deletions seen in the cleanup block are those of the tracked agents. *)
Ltac observe_deletes :=
  repeat match goal with
         | |- context [flat_map ?f (cleanup_events ?w ?s)] =>
             change (flat_map f (cleanup_events w s))
               with (delete_attempts (cleanup_events w s));
             rewrite cleanup_events_deletes
         end;
  unfold tracked;
  cbn [flat_map map app agent_id orchestrator analysis_agent optimizer_agent
       set_thread_log set_pending_input initial_state].

(** C7.  When the blocking run comes back with status Failed, the console
    shows the line [Run failed:] followed by the platform's [last_error],
    that run is the only one the invocation started, and the invocation
    returns instead of raising. *)
Theorem C7_failed_run (w : World) (r : Run) :
  In (Ok r) (run_results (trace_of w)) ->
  status r = Failed ->
  outcome_of w = Returned
  /\ In (lit "Run failed: " ++ str_of_option (last_error r)) (printed (trace_of w))
  /\ run_results (trace_of w) = [Ok r].
Proof.
  explore_invoke w; shape_inputs; intros Hin Hst; observe_in Hin;
    cbn [In] in Hin; try contradiction;
    destruct Hin as [Hin|[]]; try discriminate Hin;
    injection Hin as ->; try status_clash; observe.
  repeat split. do 3 right. left. reflexivity.
Qed.

Lemma C7_failed_run_witness :
  outcome_of world_failed = Returned
  /\ In (lit "Run failed: " ++ lit "rate_limit_exceeded")
        (printed (trace_of world_failed))
  /\ run_results (trace_of world_failed) = [Ok failed_run].
Proof.
  apply (C7_failed_run world_failed failed_run).
  - vm_compute. left. reflexivity.
  - reflexivity.
Defined.

(** C9.  When the blocking run comes back with status Failed, the
    invocation lists no thread messages and touches no file: no directory
    is made, no Markdown or JSON file is opened or written.  The cleanup
    block still runs: the three definitions created are each attempted. *)
Theorem C9_failed_run_writes_nothing (w : World) (r : Run) :
  In (Ok r) (run_results (trace_of w)) ->
  status r = Failed ->
  list_orders (trace_of w) = []
  /\ file_events (trace_of w) = []
  /\ exists ida ido idorch,
       created_ids (trace_of w) = [ida; ido; idorch]
       /\ delete_attempts (trace_of w) = [idorch; ida; ido].
Proof.
  explore_invoke w; shape_inputs; intros Hin Hst; observe_in Hin;
    cbn [In] in Hin; try contradiction;
    destruct Hin as [Hin|[]]; try discriminate Hin;
    injection Hin as ->; try status_clash; observe.
  observe_deletes. repeat split. eauto.
Qed.

Lemma C9_failed_run_writes_nothing_witness :
  list_orders (trace_of world_failed) = []
  /\ file_events (trace_of world_failed) = []
  /\ exists ida ido idorch,
       created_ids (trace_of world_failed) = [ida; ido; idorch]
       /\ delete_attempts (trace_of world_failed) = [idorch; ida; ido].
Proof.
  apply (C9_failed_run_writes_nothing world_failed failed_run).
  - vm_compute. left. reflexivity.
  - reflexivity.
Defined.

(** The instructions line is the one read with the instructions prompt:
    the lines of the input loop carry an empty prompt. *)
Ltac instructions_line H :=
  apply in_app_or in H;
  destruct H as [H|[H|[]]];
  [ apply in_flat_map in H;
    let l := fresh "l" in
    let Hl := fresh "Hl" in
    destruct H as [l [Hl [H|[]]]];
    injection H as H _; symmetry in H;
    now apply instructions_prompt_not_empty in H
  | injection H as -> ].

(** C10.  Let [raw] be the line typed at the instructions prompt of an
    invocation that saved its report.  If [raw] stripped of whitespace is
    empty or is exactly the lowercase word [none], the one message posted
    to the thread and the chunks written to the Markdown file carry no
    instructions; for any other stripped value (the comparison is exact,
    so [None] and [NONE] count as instructions) both carry the stripped
    value verbatim. *)
Theorem C10_instructions_sentinel (w : World) (raw : str) (res : ReportJson) :
  In (instructions_prompt, Some raw) (answers (trace_of w)) ->
  In res (json_dumps (trace_of w)) ->
  posted (trace_of w)
  = [if is_sentinel (strip raw)
     then message_without (process_description res)
     else message_with (process_description res) (strip raw)]
  /\ written (trace_of w)
     = if is_sentinel (strip raw)
       then markdown_without (now_date w) (process_description res)
                             (full_report res)
       else markdown_with (now_date w) (process_description res) (strip raw)
                          (full_report res).
Proof.
  explore_invoke w; shape_inputs; intros Hraw Hres; observe_in Hres;
    cbn [In] in Hres; try contradiction; destruct Hres as [<-|[]];
    observe_in Hraw; instructions_line Hraw; observe;
    cbn [process_description full_report];
    rewrite user_message_sentinel;
    rewrite normalise_commands_test in *;
    destruct (is_sentinel (strip raw)) eqn:Esent; try discriminate;
    (split; [reflexivity|]).
  - now rewrite (normalise_commands_kept raw Esent).
  - reflexivity.
Qed.

Lemma C10_instructions_sentinel_witness :
  posted (trace_of world_capital_none)
  = [if is_sentinel (strip (lit "  None "))
     then message_without (process_description capital_none_report)
     else message_with (process_description capital_none_report)
                       (strip (lit "  None "))]
  /\ written (trace_of world_capital_none)
     = if is_sentinel (strip (lit "  None "))
       then markdown_without (now_date world_capital_none)
              (process_description capital_none_report)
              (full_report capital_none_report)
       else markdown_with (now_date world_capital_none)
              (process_description capital_none_report)
              (strip (lit "  None ")) (full_report capital_none_report).
Proof.
  apply (C10_instructions_sentinel world_capital_none (lit "  None ")
           capital_none_report).
  - vm_compute. do 3 right. left. reflexivity.
  - vm_compute. left. reflexivity.
Defined.

(** The sentinel test on a few instruction lines. *)
Example sentinel_examples :
  is_sentinel (strip (lit "  None ")) = false
  /\ is_sentinel (strip (lit "NONE")) = false
  /\ is_sentinel (strip (lit " none  ")) = true
  /\ is_sentinel (strip (lit "   ")) = true
  /\ is_sentinel (strip (lit "none please")) = false.
Proof. vm_compute. repeat split. Qed.

(** Console lines of the cleanup block. *)
Lemma cleanup_events_printed (w : World) (s : State) :
  printed (cleanup_events w s)
  = cleaning_msg :: delete_warnings w (map agent_id (tracked s)) ++ [done_msg].
Proof. unfold delete_warnings. cleanup_cases s; cbn [map flat_map app printed];
  repeat match goal with H : delete_agent_result _ _ = _ |- _ => rewrite H end;
  reflexivity. Qed.

Ltac observe_cleanup_prints :=
  repeat match goal with
         | |- context [flat_map ?f (cleanup_events ?w ?s)] =>
             change (flat_map f (cleanup_events w s))
               with (printed (cleanup_events w s));
             rewrite cleanup_events_printed
         end.

(** C8.  In an invocation that saved its report, the script listed the
    thread in ascending order, and the [full_report] handed to
    [json.dump], which is also the last chunk of the Markdown file, is made
    of the final text segments of the assistant messages that carry text,
    in thread order, joined with one newline between neighbours. *)
Theorem C8_full_text_joined (w : World) (res : ReportJson) :
  In res (json_dumps (trace_of w)) ->
  list_orders (trace_of w) = [ASCENDING]
  /\ full_report res = joined_full_text (thread_messages w (trace_of w))
  /\ last (written (trace_of w)) [] = full_report res.
Proof.
  explore_invoke w; shape_inputs; intros Hres; observe_in Hres;
    cbn [In] in Hres; try contradiction; destruct Hres as [<-|[]];
    unfold joined_full_text, thread_messages; observe;
    cbn [full_report map app last];
    rewrite <- collected_final_segments; now repeat split.
Qed.

Lemma C8_full_text_joined_witness :
  list_orders (trace_of world_two_messages) = [ASCENDING]
  /\ full_report two_messages_report
     = joined_full_text (thread_messages world_two_messages
                                         (trace_of world_two_messages))
  /\ last (written (trace_of world_two_messages)) []
     = full_report two_messages_report.
Proof.
  apply (C8_full_text_joined world_two_messages two_messages_report).
  vm_compute. left. reflexivity.
Defined.

(** C8 as the spec words it fails: with two assistant messages whose final
    segments are A and B, the saved report is A, a newline, B, while plain
    concatenation of the segments gives AB. *)
Lemma C8_concatenation_counterexample :
  map full_report (json_dumps (trace_of world_two_messages))
  = [lit "A" ++ nl ++ lit "B"]
  /\ spec_full_text (thread_messages world_two_messages
                                     (trace_of world_two_messages))
     = lit "AB"
  /\ lit "A" ++ nl ++ lit "B" <> lit "AB".
Proof. vm_compute. repeat split. discriminate. Qed.

(** C2.  In an invocation that saved its report, no validator has run:
    the session fell through, and the console shows the three opening
    lines, the collected texts echoed as they are, the three lines about
    the saved files and the cleanup lines, with one warning per failed
    deletion.  No line depends on which headings the report contains. *)
Theorem C2_no_validator (w : World) (res : ReportJson) :
  In res (json_dumps (trace_of w)) ->
  outcome_of w = Normal tt
  /\ printed (trace_of w)
     = [banner; describe_prompt; analysing_msg]
       ++ report_texts (thread_messages w (trace_of w))
       ++ [saved_msg;
           lit "  Markdown: " ++ resolve w (md_path (now_compact w));
           lit "  JSON: " ++ resolve w (json_path (now_compact w));
           cleaning_msg]
       ++ delete_warnings w (delete_attempts (trace_of w))
       ++ [done_msg].
Proof.
  explore_invoke w; shape_inputs; intros Hres; observe_in Hres;
    cbn [In] in Hres; try contradiction; destruct Hres as [<-|[]];
    unfold thread_messages; observe; observe_deletes;
    observe_cleanup_prints;
    unfold tracked;
    cbn [flat_map map app agent_id orchestrator analysis_agent optimizer_agent
         set_thread_log set_pending_input initial_state];
    rewrite <- collected_final_segments;
    (split; [reflexivity|]);
    unfold saved_msg; cbn [flat_map app]; rewrite <- ?app_assoc; reflexivity.
Qed.

Lemma C2_no_validator_witness :
  outcome_of world_two_messages = Normal tt
  /\ printed (trace_of world_two_messages)
     = [banner; describe_prompt; analysing_msg]
       ++ report_texts (thread_messages world_two_messages
                                        (trace_of world_two_messages))
       ++ [saved_msg;
           lit "  Markdown: "
           ++ resolve world_two_messages (md_path (now_compact world_two_messages));
           lit "  JSON: "
           ++ resolve world_two_messages (json_path (now_compact world_two_messages));
           cleaning_msg]
       ++ delete_warnings world_two_messages
            (delete_attempts (trace_of world_two_messages))
       ++ [done_msg].
Proof.
  apply (C2_no_validator world_two_messages two_messages_report).
  vm_compute. left. reflexivity.
Defined.

(** C2 as the spec words it fails: the report of [world_plain] lacks all
    ten mandated headings, that of [world_complete] lacks none; both
    invocations fall through, and apart from the echoed report the two
    consoles show the same lines, none of them a warning. *)
Lemma C2_validator_counterexample :
  map (fun r => missing_headings (full_report r))
      (json_dumps (trace_of world_plain)) = [mandated_headings]
  /\ map (fun r => missing_headings (full_report r))
         (json_dumps (trace_of world_complete)) = [[]]
  /\ outcome_of world_plain = Normal tt
  /\ outcome_of world_complete = Normal tt
  /\ printed (trace_of world_plain)
     = [banner; describe_prompt; analysing_msg; lit "hello"; saved_msg;
        lit "  Markdown: /work/outputs/process_report_20250101-120000.md";
        lit "  JSON: /work/outputs/process_report_20250101-120000.json";
        cleaning_msg; done_msg]
  /\ console_besides_report world_plain (trace_of world_plain)
     = console_besides_report world_complete (trace_of world_complete).
Proof. vm_compute. repeat split. Qed.

(** C1.  Whenever an invocation starts a run: the analysis and the
    optimization workers were created, in that order, before the
    orchestrator; the orchestrator carries the fixed instructions (which
    ask for the analysis first and the optimization on its result) and the
    two workers as its tools, analysis first; exactly one run was started,
    on the orchestrator; and the delegated calls of the trace are those
    the platform made during that run, in the platform's order.  The
    script makes no delegated call of its own and fixes neither their
    order nor their inputs. *)
Theorem C1_delegation_left_to_platform (w : World) (r : Result Run) :
  In r (run_results (trace_of w)) ->
  exists ida ido idorch thread,
    agent_creations (trace_of w)
    = [ (analysis_name, analysis_instructions, [], Ok ida);
        (optimizer_name, optimizer_instructions, [], Ok ido);
        (orchestrator_name, orchestrator_instructions,
         [analysis_binding ida; optimizer_binding ido], Ok idorch) ]
    /\ run_starts (trace_of w) = [(thread, idorch)]
    /\ run_results (trace_of w) = [r]
    /\ delegated_calls (trace_of w) = run_delegations w.
Proof.
  explore_invoke w; shape_inputs; intros Hres; observe_in Hres;
    cbn [In] in Hres; try contradiction; destruct Hres as [<-|[]];
    observe; do 4 eexists; repeat split.
Qed.

Lemma C1_delegation_left_to_platform_witness :
  exists ida ido idorch thread,
    agent_creations (trace_of world_reversed)
    = [ (analysis_name, analysis_instructions, [], Ok ida);
        (optimizer_name, optimizer_instructions, [], Ok ido);
        (orchestrator_name, orchestrator_instructions,
         [analysis_binding ida; optimizer_binding ido], Ok idorch) ]
    /\ run_starts (trace_of world_reversed) = [(thread, idorch)]
    /\ run_results (trace_of world_reversed) = [Ok completed_run]
    /\ delegated_calls (trace_of world_reversed) = run_delegations world_reversed.
Proof.
  apply (C1_delegation_left_to_platform world_reversed (Ok completed_run)).
  vm_compute. left. reflexivity.
Defined.

(** C1 as the spec words it fails: in [world_reversed] the orchestrating
    model calls the optimization advisor before the analysis agent and on
    the raw description; the invocation completes all the same, with these
    two delegated calls in this order. *)
Lemma C1_sequencing_counterexample :
  outcome_of world_reversed = Normal tt
  /\ map callee (delegated_calls (trace_of world_reversed))
     = [optimizer_name; analysis_name]
  /\ analysis_feeds_optimizer [] (delegated_calls (trace_of world_reversed))
     = false.
Proof. vm_compute. repeat split. Qed.

(** * More of the code *)

(** ** [clean_markdown] *)

Transparent strip lit.

Lemma rstrip_snoc (s : str) (c : char) :
  rstrip (s ++ [c]) = if is_whitespace c then rstrip s else s ++ [c].
Proof.
  unfold rstrip. rewrite rev_app_distr. cbn [rev app lstrip].
  destruct (is_whitespace c); [reflexivity|].
  cbn [rev]. now rewrite rev_involutive.
Qed.

Lemma rstrip_prefix (s : str) :
  exists q, s = rstrip s ++ q /\ forallb is_whitespace q = true.
Proof.
  induction s as [|c s IH] using rev_ind.
  - now exists [].
  - rewrite rstrip_snoc. destruct (is_whitespace c) eqn:Ec.
    + destruct IH as [q [Hq Hws]]. exists (q ++ [c]). split.
      * rewrite app_assoc. now rewrite <- Hq.
      * rewrite forallb_app, Hws. cbn. now rewrite Ec.
    + exists []. now rewrite app_nil_r.
Qed.

Lemma rstrip_trimmed (s : str) : no_trailing_space (rstrip s) = true.
Proof.
  induction s as [|c s IH] using rev_ind; [reflexivity|].
  rewrite rstrip_snoc. destruct (is_whitespace c) eqn:Ec; [exact IH|].
  unfold no_trailing_space. rewrite rev_app_distr. cbn. now rewrite Ec.
Qed.

Lemma rstrip_fixed (s : str) : no_trailing_space s = true -> rstrip s = s.
Proof.
  destruct s as [|c s] using rev_ind; [reflexivity|].
  unfold no_trailing_space. rewrite rev_app_distr. cbn [rev app].
  intros H. rewrite rstrip_snoc.
  now destruct (is_whitespace c).
Qed.

Lemma rstrip_keeps_head (s : str) :
  no_leading_bullet s = true -> no_leading_bullet (rstrip s) = true.
Proof.
  induction s as [|c s IH] using rev_ind; [reflexivity|].
  rewrite rstrip_snoc. destruct (is_whitespace c); [|tauto].
  intros H. apply IH. destruct s; [reflexivity | exact H].
Qed.

Lemma bullet_of_space (c : char) : is_whitespace c = true -> is_bullet c = true.
Proof. unfold is_bullet. intros ->. now rewrite !orb_true_r. Qed.

Lemma lstrip_fixed (s : str) : no_leading_bullet s = true -> lstrip s = s.
Proof.
  destruct s as [|c s]; [reflexivity|]. cbn.
  destruct (is_whitespace c) eqn:Ec; [|reflexivity].
  now rewrite (bullet_of_space c Ec).
Qed.

Lemma drop_leading_bullets_clean (s : str) :
  no_leading_bullet (drop_leading_bullets s) = true.
Proof.
  induction s as [|c s IH]; [reflexivity|].
  cbn [drop_leading_bullets]. destruct (is_bullet c) eqn:Ec; [exact IH|].
  cbn. now rewrite Ec.
Qed.

Lemma drop_leading_bullets_fixed (s : str) :
  no_leading_bullet s = true -> drop_leading_bullets s = s.
Proof.
  destruct s as [|c s]; [reflexivity|]. cbn.
  now destruct (is_bullet c).
Qed.

Lemma drop_leading_bullets_suffix (s : str) :
  exists p, s = p ++ drop_leading_bullets s /\ forallb is_bullet p = true.
Proof.
  induction s as [|c s [p [Hp Hb]]]; [now exists []|].
  cbn [drop_leading_bullets]. destruct (is_bullet c) eqn:Ec.
  - exists (c :: p). cbn. rewrite Ec, Hb. now rewrite <- Hp.
  - now exists [].
Qed.

(** A text that starts with no asterisk is no match for the two unwrapping
    patterns. *)
Lemma unwrap_needs_asterisk (marker s : str) :
  no_leading_bullet s = true -> unwrap (42%N :: marker) s = s.
Proof.
  unfold unwrap. destruct s as [|c s]; [reflexivity|].
  cbn [no_leading_bullet strip_prefix]. unfold is_bullet.
  destruct (42 =? c)%N eqn:E; [|reflexivity].
  apply N.eqb_eq in E. subst c. cbn. discriminate.
Qed.

Lemma remove_citations_closes (inside : bool) (s : str) :
  existsb (N.eqb citation_close) (remove_citations_from inside s) = true ->
  existsb (N.eqb citation_close) s = true.
Proof.
  revert inside; induction s as [|c s IH]; intros inside; [destruct inside; tauto|].
  cbn [remove_citations_from existsb].
  destruct inside.
  - intros H. apply IH in H. rewrite H. apply orb_true_r.
  - destruct ((c =? citation_open)%N && existsb (N.eqb citation_close) s).
    + intros H. apply IH in H. rewrite H. apply orb_true_r.
    + cbn [existsb]. intros H. apply orb_true_iff in H as [H|H].
      * now rewrite H.
      * apply IH in H. rewrite H. apply orb_true_r.
Qed.

Lemma remove_citations_none (inside : bool) (s : str) :
  has_citation_b (remove_citations_from inside s) = false.
Proof.
  revert inside; induction s as [|c s IH]; intros inside; [destruct inside; reflexivity|].
  cbn [remove_citations_from]. destruct inside; [apply IH|].
  destruct ((c =? citation_open)%N && existsb (N.eqb citation_close) s) eqn:E;
    [apply IH|].
  cbn [has_citation_b]. rewrite IH, orb_false_r.
  apply andb_false_iff in E as [E|E]; [now rewrite E|].
  apply andb_false_iff. right.
  destruct (existsb (N.eqb citation_close) (remove_citations_from false s)) eqn:E';
    [|reflexivity].
  apply remove_citations_closes in E'. congruence.
Qed.

Lemma remove_citations_fixed (s : str) :
  has_citation_b s = false -> remove_citations s = s.
Proof.
  unfold remove_citations. induction s as [|c s IH]; [reflexivity|].
  cbn [has_citation_b remove_citations_from]. intros H.
  apply orb_false_iff in H as [H1 H2]. rewrite H1. now rewrite IH.
Qed.

Lemma has_citation_reflect (s : str) :
  has_citation s <-> has_citation_b s = true.
Proof.
  split.
  - intros [a [b [c ->]]]. induction a as [|x a IH].
    + cbn [app has_citation_b]. rewrite N.eqb_refl, existsb_app.
      cbn [existsb andb]. rewrite N.eqb_refl. cbn [orb].
      now rewrite orb_true_r.
    + cbn [app has_citation_b]. rewrite IH. apply orb_true_r.
  - induction s as [|x s IH]; [discriminate|].
    cbn [has_citation_b]. intros H. apply orb_true_iff in H as [H|H].
    + apply andb_true_iff in H as [Hx Hc]. apply N.eqb_eq in Hx. subst x.
      apply existsb_exists in Hc as [y [Hy Ey]]. apply N.eqb_eq in Ey. subst y.
      apply in_split in Hy as [b [c ->]]. now exists [], b, c.
    + destruct (IH H) as [a [b [c ->]]]. now exists (x :: a), b, c.
Qed.

Lemma has_citation_inside (p u q : str) :
  has_citation u -> has_citation (p ++ u ++ q).
Proof.
  intros [a [b [c ->]]]. exists (p ++ a), b, (c ++ q).
  rewrite <- !app_assoc. cbn. rewrite <- !app_assoc. reflexivity.
Qed.

(** The function without its two unwrapping steps. *)
Lemma clean_markdown_steps (s : str) :
  clean_markdown s
  = rstrip (drop_leading_bullets (remove_citations (strip s))).
Proof.
  unfold clean_markdown. cbn zeta.
  set (t := drop_leading_bullets (remove_citations (strip s))).
  assert (H : no_leading_bullet t = true) by apply drop_leading_bullets_clean.
  assert (E2 : unwrap (lit "**") t = t)
    by exact (unwrap_needs_asterisk [42%N] t H).
  assert (E1 : unwrap (lit "*") t = t)
    by exact (unwrap_needs_asterisk [] t H).
  rewrite E2, E1. unfold strip at 1. now rewrite lstrip_fixed.
Qed.

Lemma clean_markdown_no_citation_b (s : str) :
  has_citation_b (clean_markdown s) = false.
Proof.
  rewrite clean_markdown_steps.
  set (r := remove_citations (strip s)).
  destruct (has_citation_b (rstrip (drop_leading_bullets r))) eqn:E; [|reflexivity].
  apply has_citation_reflect in E.
  destruct (drop_leading_bullets_suffix r) as [p [Hp _]].
  destruct (rstrip_prefix (drop_leading_bullets r)) as [q [Hq _]].
  apply (has_citation_inside p _ q) in E.
  rewrite <- Hq, <- Hp in E. apply has_citation_reflect in E.
  unfold r, remove_citations in E. now rewrite remove_citations_none in E.
Qed.

Lemma clean_markdown_fixed (s : str) :
  no_leading_bullet s = true -> no_trailing_space s = true ->
  has_citation_b s = false -> clean_markdown s = s.
Proof.
  intros Hl Ht Hc. rewrite clean_markdown_steps.
  unfold strip. rewrite (lstrip_fixed s Hl), (rstrip_fixed s Ht).
  rewrite (remove_citations_fixed s Hc), (drop_leading_bullets_fixed s Hl).
  exact (rstrip_fixed s Ht).
Qed.

Lemma clean_markdown_shape (s : str) :
  no_leading_bullet (clean_markdown s) = true
  /\ no_trailing_space (clean_markdown s) = true.
Proof.
  rewrite clean_markdown_steps. split.
  - apply rstrip_keeps_head, drop_leading_bullets_clean.
  - apply rstrip_trimmed.
Qed.

Lemma bullet_not_open (c : char) :
  is_bullet c = true -> (c =? citation_open)%N = false.
Proof.
  intros H. destruct (c =? citation_open)%N eqn:E; [|reflexivity].
  apply N.eqb_eq in E. subst c. discriminate H.
Qed.

Lemma remove_citations_bullets (q y : str) :
  forallb is_bullet q = true ->
  remove_citations (q ++ y) = q ++ remove_citations y.
Proof.
  unfold remove_citations. induction q as [|c q IH]; [reflexivity|].
  cbn [forallb app remove_citations_from]. intros H.
  apply andb_true_iff in H as [Hc Hq].
  rewrite (bullet_not_open c Hc). cbn [andb]. now rewrite IH.
Qed.

Lemma drop_leading_bullets_app (q z : str) :
  forallb is_bullet q = true ->
  drop_leading_bullets (q ++ z) = drop_leading_bullets z.
Proof.
  induction q as [|c q IH]; [reflexivity|].
  cbn [forallb app drop_leading_bullets]. intros H.
  apply andb_true_iff in H as [Hc Hq]. rewrite Hc. now apply IH.
Qed.

Lemma spaces_are_bullets (q : str) :
  forallb is_whitespace q = true -> forallb is_bullet q = true.
Proof.
  induction q as [|c q IH]; [reflexivity|]. cbn [forallb]. intros H.
  apply andb_true_iff in H as [Hc Hq].
  now rewrite (bullet_of_space c Hc), IH.
Qed.

Lemma lstrip_suffix (s : str) :
  exists q, forallb is_whitespace q = true /\ s = q ++ lstrip s.
Proof.
  induction s as [|c s [q [Hq Es]]]; [now exists []|].
  cbn [lstrip]. destruct (is_whitespace c) eqn:Ec.
  - exists (c :: q). cbn [forallb app]. rewrite Ec, Hq. now rewrite <- Es.
  - now exists [].
Qed.

Lemma lstrip_after_bullets (p s : str) :
  forallb is_bullet p = true ->
  exists q, forallb is_bullet q = true /\ lstrip (p ++ s) = q ++ lstrip s.
Proof.
  induction p as [|c p IH]; intros H.
  - now exists [].
  - cbn [forallb] in H. apply andb_true_iff in H as [Hc Hp].
    cbn [app lstrip]. destruct (is_whitespace c); [now apply IH|].
    destruct (lstrip_suffix s) as [q [Hq Es]].
    exists (c :: p ++ q). split.
    + cbn [forallb]. rewrite Hc, forallb_app, Hp.
      now rewrite (spaces_are_bullets q Hq).
    + cbn [app]. rewrite <- app_assoc. now rewrite <- Es.
Qed.

Lemma rstrip_app (q u : str) :
  rstrip (q ++ u)
  = match rstrip u with
    | [] => rstrip q
    | _ :: _ => q ++ rstrip u
    end.
Proof.
  induction u as [|c u IH] using rev_ind.
  - now rewrite app_nil_r.
  - rewrite app_assoc, !rstrip_snoc.
    destruct (is_whitespace c); [exact IH|].
    rewrite <- app_assoc. now destruct u.
Qed.

Lemma rstrip_bullets (q : str) :
  forallb is_bullet q = true -> forallb is_bullet (rstrip q) = true.
Proof.
  intros H. destruct (rstrip_prefix q) as [r [Hr _]].
  rewrite Hr, forallb_app in H. now apply andb_true_iff in H as [H _].
Qed.

(** Bullets and blanks put in front of a text do not show in the result. *)
Lemma clean_markdown_after_bullets (p s : str) :
  forallb is_bullet p = true -> clean_markdown (p ++ s) = clean_markdown s.
Proof.
  intros Hp. rewrite !clean_markdown_steps. unfold strip.
  destruct (lstrip_after_bullets p s Hp) as [q [Hq ->]].
  rewrite rstrip_app.
  destruct (rstrip (lstrip s)) as [|c u] eqn:E.
  - pose proof (rstrip_bullets q Hq) as Hr.
    rewrite <- (app_nil_r (rstrip q)).
    rewrite (remove_citations_bullets _ [] Hr).
    now rewrite (drop_leading_bullets_app _ _ Hr).
  - rewrite (remove_citations_bullets _ _ Hq).
    now rewrite (drop_leading_bullets_app _ _ Hq).
Qed.

(** X1.  At the point where the script applies them, the two substitutions
    that should unwrap a text set between asterisks change nothing: the
    substitution before them has removed every leading asterisk, and both
    patterns need one at the start. *)
Theorem clean_markdown_unwrap_never_applies (s : str) :
  let t := drop_leading_bullets (remove_citations (strip s)) in
  unwrap (lit "**") t = t
  /\ unwrap (lit "*") (unwrap (lit "**") t) = t
  /\ clean_markdown s = strip t.
Proof.
  cbn zeta.
  set (t := drop_leading_bullets (remove_citations (strip s))).
  assert (H : no_leading_bullet t = true) by apply drop_leading_bullets_clean.
  assert (E2 : unwrap (lit "**") t = t)
    by exact (unwrap_needs_asterisk [42%N] t H).
  assert (E1 : unwrap (lit "*") t = t)
    by exact (unwrap_needs_asterisk [] t H).
  repeat split; [exact E2 | now rewrite E2 |].
  unfold clean_markdown. cbn zeta. fold t. now rewrite E2, E1.
Qed.

(** X2.  The result of [clean_markdown] never begins with a hyphen, an
    asterisk, a plus sign or a blank, and never ends with a blank. *)
Theorem clean_markdown_trimmed (s : str) :
  no_leading_bullet (clean_markdown s) = true
  /\ no_trailing_space (clean_markdown s) = true.
Proof. apply clean_markdown_shape. Qed.

(** X3.  The result of [clean_markdown] holds no citation: no opening
    citation bracket with a closing one anywhere after it. *)
Theorem clean_markdown_no_citation (s : str) :
  ~ has_citation (clean_markdown s).
Proof.
  intros H. apply has_citation_reflect in H.
  now rewrite clean_markdown_no_citation_b in H.
Qed.

(** X4.  [clean_markdown] leaves a text as it is exactly when the text
    begins with no bullet character or blank, ends with no blank and holds
    no citation. *)
Theorem clean_markdown_fixed_points (s : str) :
  clean_markdown s = s
  <-> no_leading_bullet s = true /\ no_trailing_space s = true
      /\ ~ has_citation s.
Proof.
  split.
  - intros E. rewrite <- E. destruct (clean_markdown_shape s) as [Hl Ht].
    repeat split; try assumption.
    intros H. apply has_citation_reflect in H.
    now rewrite clean_markdown_no_citation_b in H.
  - intros [Hl [Ht Hc]]. apply clean_markdown_fixed; try assumption.
    destruct (has_citation_b s) eqn:E; [|reflexivity].
    now apply has_citation_reflect in E.
Qed.

(** X5.  Cleaning twice gives what cleaning once gives. *)
Theorem clean_markdown_idempotent (s : str) :
  clean_markdown (clean_markdown s) = clean_markdown s.
Proof.
  destruct (clean_markdown_shape s) as [Hl Ht].
  apply clean_markdown_fixed; try assumption.
  apply clean_markdown_no_citation_b.
Qed.

(** X6.  Bullet characters and blanks in front of a text leave no trace:
    the text cleans to the same result with or without them.  In
    particular a text made of bullet characters and blanks only, the empty
    text included, cleans to the empty text. *)
Theorem clean_markdown_ignores_leading_bullets (p s : str) :
  forallb is_bullet p = true ->
  clean_markdown (p ++ s) = clean_markdown s
  /\ clean_markdown p = [].
Proof.
  intros Hp. split; [now apply clean_markdown_after_bullets|].
  rewrite <- (app_nil_r p). now rewrite clean_markdown_after_bullets.
Qed.

Lemma clean_markdown_ignores_leading_bullets_witness :
  clean_markdown (lit " - * " ++ lit "Assign owner")
  = clean_markdown (lit "Assign owner")
  /\ clean_markdown (lit " - * ") = [].
Proof.
  apply (clean_markdown_ignores_leading_bullets (lit " - * ") (lit "Assign owner")).
  reflexivity.
Defined.

Lemma clean_markdown_fixed_points_witness :
  clean_markdown (lit "Assign owner") = lit "Assign owner".
Proof.
  apply (proj2 (clean_markdown_fixed_points (lit "Assign owner"))).
  repeat split. intros H. apply has_citation_reflect in H. discriminate H.
Defined.

(** ** Stripping and the instructions line *)

Lemma lstrip_starts_with_text (s : str) : starts_with_text (lstrip s) = true.
Proof.
  induction s as [|c s IH]; [reflexivity|].
  cbn [lstrip]. destruct (is_whitespace c) eqn:Ec; [exact IH|].
  cbn. now rewrite Ec.
Qed.

Lemma rstrip_starts_with_text (s : str) :
  starts_with_text s = true -> starts_with_text (rstrip s) = true.
Proof.
  induction s as [|c s IH] using rev_ind; [reflexivity|].
  rewrite rstrip_snoc. destruct (is_whitespace c); [|tauto].
  intros H. apply IH. destruct s; [reflexivity | exact H].
Qed.

Lemma lstrip_keeps_text (s : str) : starts_with_text s = true -> lstrip s = s.
Proof.
  destruct s as [|c s]; [reflexivity|]. cbn.
  now destruct (is_whitespace c).
Qed.

Lemma strip_idempotent (s : str) : strip (strip s) = strip s.
Proof.
  unfold strip.
  rewrite (lstrip_keeps_text (rstrip (lstrip s))).
  - apply rstrip_fixed, rstrip_trimmed.
  - apply rstrip_starts_with_text, lstrip_starts_with_text.
Qed.

(** X21.  The instructions the script works with are never empty, carry
    no blank at either end, and normalising them again changes nothing. *)
Theorem custom_commands_normal_form (raw : str) :
  normalise_commands raw <> []
  /\ strip (normalise_commands raw) = normalise_commands raw
  /\ normalise_commands (normalise_commands raw) = normalise_commands raw.
Proof.
  destruct (is_sentinel (strip raw)) eqn:E.
  - rewrite (normalise_commands_sentinel raw E).
    split; [intros H; vm_compute in H; discriminate H|].
    split; [now vm_compute|].
    now apply normalise_commands_sentinel.
  - rewrite (normalise_commands_kept raw E).
    assert (E' : is_sentinel (strip (strip raw)) = false)
      by now rewrite strip_idempotent.
    rewrite (normalise_commands_kept (strip raw) E'), strip_idempotent.
    repeat split. intros H. rewrite H in E. discriminate E.
Qed.

Opaque strip lit.

(** ** The console *)

Lemma eqb_empty_line (l : str) : eqb l [] = is_empty_line l.
Proof. now destruct l. Qed.

(** The input loop on a console whose first empty line comes after [ls]. *)
Lemma input_loop_reads (ls rest acc : list str) :
  forallb (fun l => negb (is_empty_line l)) ls = true ->
  input_loop_from (ls ++ ([] : str) :: rest) acc
  = (Normal (acc ++ ls), rest,
     map (EvInput []) (map Some ls ++ [Some ([] : str)])).
Proof.
  revert acc; induction ls as [|l ls IH]; intros acc H.
  - cbn [app input_loop_from map]. rewrite eqb_empty_line. cbn.
    now rewrite app_nil_r.
  - cbn [forallb] in H. apply andb_true_iff in H as [Hl Hls].
    cbn [app input_loop_from]. rewrite eqb_empty_line.
    destruct (is_empty_line l); [discriminate|].
    rewrite (IH (acc ++ [l]) Hls). rewrite <- app_assoc. reflexivity.
Qed.

(** The input loop on a console without an empty line. *)
Lemma input_loop_starves (ls acc : list str) :
  forallb (fun l => negb (is_empty_line l)) ls = true ->
  input_loop_from ls acc
  = (Raised eof_error, [], map (EvInput []) (map Some ls ++ [None])).
Proof.
  revert acc; induction ls as [|l ls IH]; intros acc H; [reflexivity|].
  cbn [forallb] in H. apply andb_true_iff in H as [Hl Hls].
  cbn [input_loop_from]. rewrite eqb_empty_line.
  destruct (is_empty_line l); [discriminate|].
  now rewrite (IH (acc ++ [l]) Hls).
Qed.

(** X7.  The description is made of the console lines before the first
    empty line, joined by newlines; the lines after the empty one are left
    for the prompts that follow. *)
Theorem description_is_lines_before_blank (w : World) (ls rest : list str) :
  console_lines w = ls ++ ([] : str) :: rest ->
  forallb (fun l => negb (is_empty_line l)) ls = true ->
  entered_description w = Some (join nl ls)
  /\ input_loop [] (initial_state w)
     = (Normal ls, set_pending_input rest (initial_state w),
        map (EvInput []) (map Some ls ++ [Some []])).
Proof.
  intros Hc Hls. unfold entered_description, input_loop.
  cbn [pending_input initial_state]. rewrite Hc.
  now rewrite (input_loop_reads ls rest [] Hls).
Qed.

Lemma description_is_lines_before_blank_witness :
  entered_description world_plain
  = Some (join nl [lit "Customer submits support ticket via email";
                   lit "Ticket manually logged in spreadsheet"])
  /\ input_loop [] (initial_state world_plain)
     = (Normal [lit "Customer submits support ticket via email";
                lit "Ticket manually logged in spreadsheet"],
        set_pending_input [lit "none"] (initial_state world_plain),
        map (EvInput [])
            (map Some [lit "Customer submits support ticket via email";
                       lit "Ticket manually logged in spreadsheet"]
             ++ [Some []])).
Proof.
  apply (description_is_lines_before_blank world_plain
           [lit "Customer submits support ticket via email";
            lit "Ticket manually logged in spreadsheet"] [lit "none"]);
    reflexivity.
Defined.

(** X8.  When the console closes before an empty line is typed, the
    invocation raises [EOFError]; it has created nothing, and the console
    shows the banner, the prompt and the two lines of the cleanup block. *)
Theorem console_closed_in_description (w : World) :
  env_truthy (getenv w ENDPOINT_KEY) = true ->
  env_truthy (getenv w MODEL_KEY) = true ->
  forallb (fun l => negb (is_empty_line l)) (console_lines w) = true ->
  outcome_of w = Raised eof_error
  /\ beyond_console (trace_of w) = []
  /\ printed (trace_of w) = [banner; describe_prompt; cleaning_msg; done_msg].
Proof.
  intros Hep Hmd Hls. unfold outcome_of, trace_of.
  rewrite (invoke_configured w Hep Hmd). cbn zeta.
  unfold session.
  rewrite !run_bind_print, run_bind_input_loop.
  cbn [pending_input initial_state].
  rewrite (input_loop_starves _ [] Hls).
  cbn [after fst snd app orchestrator analysis_agent optimizer_agent
       set_pending_input initial_state].
  unfold cleanup_events, delete_round. observe.
  now repeat split.
Qed.

Lemma console_closed_in_description_witness :
  outcome_of world_console_closed = Raised eof_error
  /\ beyond_console (trace_of world_console_closed) = []
  /\ printed (trace_of world_console_closed)
     = [banner; describe_prompt; cleaning_msg; done_msg].
Proof. apply (console_closed_in_description world_console_closed); reflexivity. Defined.

(** X9.  When a description is typed but the console closes at the
    instructions prompt, the invocation raises [EOFError] before any agent,
    thread or run is created. *)
Theorem console_closed_at_instructions (w : World) (ls : list str) :
  env_truthy (getenv w ENDPOINT_KEY) = true ->
  env_truthy (getenv w MODEL_KEY) = true ->
  console_lines w = ls ++ [([] : str)] ->
  forallb (fun l => negb (is_empty_line l)) ls = true ->
  strip (join nl ls) <> [] ->
  outcome_of w = Raised eof_error
  /\ beyond_console (trace_of w) = []
  /\ answers (trace_of w)
     = map (fun l => ([], Some l)) (ls ++ [[]]) ++ [(instructions_prompt, None)].
Proof.
  intros Hep Hmd Hc Hls Hd. unfold outcome_of, trace_of.
  rewrite (invoke_configured w Hep Hmd). cbn zeta.
  unfold session.
  rewrite !run_bind_print, run_bind_input_loop.
  cbn [pending_input initial_state].
  rewrite Hc, (input_loop_reads ls [] [] Hls).
  cbn [app]. destruct (strip (join nl ls)) as [|c s] eqn:E; [contradiction|].
  cbn [truthy negb]. rewrite run_bind_input.
  cbn [pending_input set_pending_input initial_state].
  cbn [after fst snd app orchestrator analysis_agent optimizer_agent].
  unfold cleanup_events, delete_round. observe.
  repeat split.
  f_equal. rewrite map_app. cbn [map]. f_equal.
  clear. induction ls as [|l ls IH]; [reflexivity|].
  cbn [map flat_map app]. now rewrite IH.
Qed.

Lemma console_closed_at_instructions_witness :
  outcome_of world_no_instructions = Raised eof_error
  /\ beyond_console (trace_of world_no_instructions) = []
  /\ answers (trace_of world_no_instructions)
     = map (fun l => ([], Some l))
           ([lit "Customer submits support ticket via email";
             lit "Ticket manually logged in spreadsheet"] ++ [([] : str)])
       ++ [(instructions_prompt, None)].
Proof.
  apply (console_closed_at_instructions world_no_instructions
           [lit "Customer submits support ticket via email";
            lit "Ticket manually logged in spreadsheet"]);
    try reflexivity.
  vm_compute. discriminate.
Defined.

(** ** Every path of an invocation *)

(** The two ways the input loop can end. *)
Lemma input_loop_cases (pending acc : list str) :
  (exists ls rest,
      forallb (fun l => negb (is_empty_line l)) ls = true
      /\ pending = ls ++ ([] : str) :: rest
      /\ input_loop_from pending acc
         = (Normal (acc ++ ls), rest,
            map (EvInput []) (map Some ls ++ [Some ([] : str)])))
  \/ (forallb (fun l => negb (is_empty_line l)) pending = true
      /\ input_loop_from pending acc
         = (Raised eof_error, [], map (EvInput []) (map Some pending ++ [None]))).
Proof.
  assert (H : (exists ls rest,
                  forallb (fun l => negb (is_empty_line l)) ls = true
                  /\ pending = ls ++ ([] : str) :: rest)
              \/ forallb (fun l => negb (is_empty_line l)) pending = true).
  { induction pending as [|l pending IH]; [now right|].
    destruct l as [|c l].
    - left. now exists [], pending.
    - destruct IH as [[ls [rest [Hls ->]]]|Hp].
      + left. now exists ((c :: l) :: ls), rest.
      + now right. }
  destruct H as [[ls [rest [Hls ->]]]|Hp].
  - left. exists ls, rest. repeat split; [assumption|].
    now apply input_loop_reads.
  - right. split; [assumption|]. now apply input_loop_starves.
Qed.

Lemma observe_lines {X : Type} (f : Event -> list X) (ls : list str)
    (l : option str) :
  flat_map f (map (EvInput []) (map Some ls ++ [l]))
  = flat_map (fun x => f (EvInput [] (Some x))) ls ++ f (EvInput [] l).
Proof.
  induction ls as [|x ls IH]; cbn [map app flat_map].
  - now rewrite app_nil_r.
  - rewrite IH. now rewrite app_assoc.
Qed.

Transparent md_path json_path out_dir lit.

Lemma paths_differ (ts : str) : md_path ts <> json_path ts.
Proof.
  unfold md_path, json_path. intros H.
  apply app_inv_head in H. injection H as H.
  repeat apply app_inv_head in H. vm_compute in H. discriminate H.
Qed.

Opaque md_path json_path out_dir lit.

(** The console part of a path, in full. *)
Ltac shape_console :=
  match goal with
  | E : input_loop_from ?p ?a = _ |- _ =>
      let ls := fresh "ls" in
      let tail := fresh "tail" in
      let Hls := fresh "Hls" in
      let Hc := fresh "Hconsole" in
      let E' := fresh "E" in
      destruct (input_loop_cases p a) as [[ls [tail [Hls [Hc E']]]] | [Hls E']];
      rewrite E' in E; try discriminate E;
      injection E as ? ? ?; subst; cbn [app] in *
  end.

Ltac observe_pass :=
  cbn [flat_map app is_console_event is_file_event];
  rewrite ?flat_map_app.

Ltac observe_fast :=
  unfold created_ids, delete_attempts, printed, delegated_calls, run_results,
         json_dumps, written, posted, list_orders, answers, agent_creations,
         run_starts, beyond_console, file_events, call_failures,
         threads_created, thread_ids_used, opens;
  do 3 observe_pass;
  rewrite ?observe_lines, ?observe_prints;
  cbn [flat_map app is_console_event is_file_event];
  rewrite ?flat_map_nothing, ?flat_map_each;
  repeat match goal with
         | |- context [flat_map ?f (cleanup_events ?w ?s)] =>
             rewrite (@observe_cleanup _ f w s) by (intros; reflexivity)
         end;
  rewrite ?app_nil_r; cbn [app].

(** Membership in a list the path has made explicit. *)
Ltac explicit_in H :=
  cbn [In] in H;
  repeat match type of H with
         | _ \/ _ => destruct H as [H|H]
         | False => contradiction
         end.

Ltac leaf_shapes :=
  solve [ left; reflexivity
        | right; left; eexists; reflexivity
        | right; right; left; do 2 eexists; reflexivity
        | right; right; right; do 3 eexists; reflexivity ].

Ltac leaf_failure :=
  let e := fresh "e" in
  let H := fresh "H" in
  intros e H; explicit_in H; subst; now split.

Ltac leaf_thread :=
  let tid := fresh "tid" in
  let H := fresh "H" in
  intros tid H; explicit_in H; subst; reflexivity.

Ltac leaf_return :=
  let H := fresh "H" in
  intros H; try discriminate H;
  solve [ left; cbn [In]; tauto
        | right; eexists; split; [reflexivity | now apply failed_status] ].

Ltac leaf_saved :=
  let H := fresh "H" in
  intros H; try discriminate H; eexists; reflexivity.

Ltac leaf_normal :=
  let res := fresh "res" in
  let H := fresh "H" in
  intros res H; explicit_in H; reflexivity.

Ltac leaf_listing :=
  let r := fresh "r" in
  let H := fresh "H" in
  let Hst := fresh "Hst" in
  intros r H Hst; explicit_in H; try discriminate H;
  injection H as ->;
  solve [ reflexivity
        | exfalso; apply Hst; now apply failed_status ].

Ltac leaf_broken :=
  let e := fresh "e" in
  let n := fresh "n" in
  let Hn := fresh "Hn" in
  let Hne := fresh "Hne" in
  intros e [n Hn] Hne;
  solve [ now contradiction Hne | split; congruence ].

Lemma normalise_commands_value (raw : str) :
  normalise_commands raw
  = if is_sentinel (strip raw) then none_word else strip raw.
Proof.
  destruct (is_sentinel (strip raw)) eqn:E.
  - now apply normalise_commands_sentinel.
  - now apply normalise_commands_kept.
Qed.

Lemma not_blank (d : str) : negb (truthy (strip d)) = false -> strip d <> [].
Proof. now destruct (strip d). Qed.

Ltac leaf_json_refused :=
  let e := fresh "e" in
  let H := fresh "H" in
  intros e H; explicit_in H;
  first [ solve [ apply (f_equal fst) in H; cbn [fst] in H;
                  apply paths_differ in H; contradiction ]
        | apply (f_equal snd) in H; cbn [snd] in H; injection H as <-;
          split; [reflexivity|]; split; [reflexivity|]; split;
          [ unfold joined_full_text, thread_messages; observe_fast;
            cbn [map app last]; now rewrite <- collected_final_segments
          | cbn [List.length]; lia ] ].

(** The line read at the instructions prompt. *)
Ltac prompt_line H :=
  repeat (apply in_app_or in H; destruct H as [H|H]);
  [ apply in_flat_map in H;
    let x := fresh "x" in
    let Hx := fresh "Hx" in
    destruct H as [x [Hx H]]; explicit_in H;
    injection H as H _; symmetry in H;
    now apply instructions_prompt_not_empty in H
  | explicit_in H; injection H as H _; symmetry in H;
    now apply instructions_prompt_not_empty in H
  | explicit_in H; injection H as -> ].

Ltac leaf_json_fields :=
  let raw := fresh "raw" in
  let res := fresh "res" in
  let Hraw := fresh "Hraw" in
  let Hres := fresh "Hres" in
  intros raw res Hraw Hres; explicit_in Hres; subst res;
  prompt_line Hraw;
  cbn [timestamp process_description custom_commands];
  repeat split;
  [ unfold entered_description;
    match goal with E : input_loop_from _ _ = _ |- _ => now rewrite E end
  | now apply not_blank
  | apply normalise_commands_value ].

Ltac leaf_file_order :=
  let res := fresh "res" in
  let Hres := fresh "Hres" in
  intros res Hres; explicit_in Hres; subst res;
  repeat match goal with u : unit |- _ => destruct u end;
  reflexivity.

Ltac leaf :=
  first [ leaf_shapes | leaf_failure | leaf_thread | leaf_return | leaf_saved
        | leaf_normal | leaf_listing | leaf_broken | leaf_json_refused
        | leaf_json_fields | leaf_file_order ].

Lemma invocation_invariants (w : World) :
  (agent_creations (trace_of w) = []
   \/ (exists r, agent_creations (trace_of w)
                 = [(analysis_name, analysis_instructions, [], r)])
   \/ (exists ida r, agent_creations (trace_of w)
                     = [(analysis_name, analysis_instructions, [], Ok ida);
                        (optimizer_name, optimizer_instructions, [], r)])
   \/ (exists ida ido r,
         agent_creations (trace_of w)
         = [(analysis_name, analysis_instructions, [], Ok ida);
            (optimizer_name, optimizer_instructions, [], Ok ido);
            (orchestrator_name, orchestrator_instructions,
             [analysis_binding ida; optimizer_binding ido], r)]))
  /\ (forall e, In e (call_failures (trace_of w)) ->
        outcome_of w = Raised e /\ call_failures (trace_of w) = [e])
  /\ (forall tid, In tid (thread_ids_used (trace_of w)) ->
        threads_created (trace_of w) = [tid])
  /\ (outcome_of w = Returned ->
        In no_description_msg (printed (trace_of w))
        \/ exists r, run_results (trace_of w) = [Ok r] /\ status r = Failed)
  /\ (outcome_of w = Normal tt -> exists res, json_dumps (trace_of w) = [res])
  /\ (forall res, In res (json_dumps (trace_of w)) -> outcome_of w = Normal tt)
  /\ (forall r, In (Ok r) (run_results (trace_of w)) -> status r <> Failed ->
        list_orders (trace_of w) = [ASCENDING])
  /\ (forall e, listing_breaks w e ->
        list_orders (trace_of w) <> [] ->
        outcome_of w = Raised e /\ file_events (trace_of w) = [])
  /\ (forall e, In (json_path (now_compact w), Err e) (opens (trace_of w)) ->
        outcome_of w = Raised e
        /\ json_dumps (trace_of w) = []
        /\ last (written (trace_of w)) []
           = joined_full_text (thread_messages w (trace_of w))
        /\ 6 <= List.length (written (trace_of w)))
  /\ (forall raw res,
        In (instructions_prompt, Some raw) (answers (trace_of w)) ->
        In res (json_dumps (trace_of w)) ->
        json_dumps (trace_of w) = [res]
        /\ timestamp res = now_iso w
        /\ entered_description w = Some (process_description res)
        /\ strip (process_description res) <> []
        /\ custom_commands res
           = (if is_sentinel (strip raw) then none_word else strip raw))
  /\ (forall res, In res (json_dumps (trace_of w)) ->
        file_events (trace_of w)
        = [EvMkdir out_dir (Ok tt); EvOpen (md_path (now_compact w)) (Ok tt)]
          ++ map (EvWrite (md_path (now_compact w))) (written (trace_of w))
          ++ [EvOpen (json_path (now_compact w)) (Ok tt);
              EvJsonDump (json_path (now_compact w)) res]).
Proof.
  explore_invoke w.
  all: try shape_console.
  all: repeat match goal with |- _ /\ _ => split end.
  all: observe_fast.
  all: leaf.
Qed.

(** ** What every invocation does *)

(** X10.  Agents are created in a fixed order and only while the previous
    creation succeeded: first the analysis agent, then the optimization
    advisor, then the orchestrator; the orchestrator is created with
    exactly two tools, which carry the ids the platform returned for the
    two workers. *)
Theorem agents_created_in_order (w : World) :
  agent_creations (trace_of w) = []
  \/ (exists r, agent_creations (trace_of w)
                = [(analysis_name, analysis_instructions, [], r)])
  \/ (exists ida r, agent_creations (trace_of w)
                    = [(analysis_name, analysis_instructions, [], Ok ida);
                       (optimizer_name, optimizer_instructions, [], r)])
  \/ (exists ida ido r,
        agent_creations (trace_of w)
        = [(analysis_name, analysis_instructions, [], Ok ida);
           (optimizer_name, optimizer_instructions, [], Ok ido);
           (orchestrator_name, orchestrator_instructions,
            [analysis_binding ida; optimizer_binding ido], r)]).
Proof.
  destruct (invocation_invariants w) as (H & _ & _ & _ & _ & _ & _ & _ & _ & _ & _).
  exact H.
Qed.

(** X11.  An error answered by a call other than a deletion (creating an
    agent or the thread, posting the message, the run, making the
    directory, opening a file) or a read from an exhausted console is
    raised to the caller as it is, and it is the only such error of the
    invocation: the script stops at the first one. *)
Theorem call_failure_is_raised (w : World) (e : Exn) :
  In e (call_failures (trace_of w)) ->
  outcome_of w = Raised e /\ call_failures (trace_of w) = [e].
Proof.
  destruct (invocation_invariants w) as (_ & H & _ & _ & _ & _ & _ & _ & _ & _ & _).
  exact (H e).
Qed.

Lemma call_failure_is_raised_witness :
  outcome_of world_optimizer_refused = Raised service_down
  /\ call_failures (trace_of world_optimizer_refused) = [service_down].
Proof.
  apply (call_failure_is_raised world_optimizer_refused service_down).
  vm_compute. left. reflexivity.
Defined.

(** X12.  Every thread id the script passes to the platform, when posting
    the message, starting the run or listing the messages, is the id of
    the one thread the invocation created. *)
Theorem one_thread_per_invocation (w : World) (tid : str) :
  In tid (thread_ids_used (trace_of w)) ->
  threads_created (trace_of w) = [tid].
Proof.
  destruct (invocation_invariants w) as (_ & _ & H & _ & _ & _ & _ & _ & _ & _ & _).
  exact (H tid).
Qed.

Lemma one_thread_per_invocation_witness :
  threads_created (trace_of world_plain) = [lit "thread_1"].
Proof.
  apply (one_thread_per_invocation world_plain (lit "thread_1")).
  vm_compute. left. reflexivity.
Defined.

(** X13.  The invocation returns early in two situations only: no
    description was given, or the run came back failed. *)
Theorem early_return_causes (w : World) :
  outcome_of w = Returned ->
  In no_description_msg (printed (trace_of w))
  \/ exists r, run_results (trace_of w) = [Ok r] /\ status r = Failed.
Proof.
  destruct (invocation_invariants w) as (_ & _ & _ & H & _ & _ & _ & _ & _ & _ & _).
  exact H.
Qed.

Lemma early_return_causes_witness :
  In no_description_msg (printed (trace_of world_failed))
  \/ exists r, run_results (trace_of world_failed) = [Ok r] /\ status r = Failed.
Proof. apply (early_return_causes world_failed). reflexivity. Defined.



(** X15.  Only the status Failed stops the invocation: a run that comes
    back in any other status, completed or not, has its thread listed in
    ascending order like a completed one. *)
Theorem only_failed_status_stops (w : World) (r : Run) :
  In (Ok r) (run_results (trace_of w)) ->
  status r <> Failed ->
  list_orders (trace_of w) = [ASCENDING].
Proof.
  destruct (invocation_invariants w) as (_ & _ & _ & _ & _ & _ & H & _ & _ & _ & _).
  exact (H r).
Qed.

Lemma only_failed_status_stops_witness :
  list_orders (trace_of world_in_progress) = [ASCENDING].
Proof.
  apply (only_failed_status_stops world_in_progress
           {| status := InProgress; last_error := None |}).
  - vm_compute. left. reflexivity.
  - discriminate.
Defined.

(** X16.  When iterating the listed messages breaks, the error is raised
    to the caller and no file is touched: no directory made, no artifact
    opened or written. *)
Theorem broken_listing_saves_nothing (w : World) (e : Exn) :
  listing_breaks w e ->
  list_orders (trace_of w) <> [] ->
  outcome_of w = Raised e /\ file_events (trace_of w) = [].
Proof.
  destruct (invocation_invariants w) as (_ & _ & _ & _ & _ & _ & _ & H & _ & _ & _).
  exact (H e).
Qed.

Lemma broken_listing_saves_nothing_witness :
  outcome_of world_listing_breaks = Raised service_down
  /\ file_events (trace_of world_listing_breaks) = [].
Proof.
  apply (broken_listing_saves_nothing world_listing_breaks service_down).
  - now exists 1.
  - vm_compute. discriminate.
Defined.

(** X17.  When the JSON file cannot be opened, the error is raised to the
    caller and nothing is handed to [json.dump], but the Markdown file has
    already been written in full, down to the report text. *)
Theorem refused_json_leaves_markdown (w : World) (e : Exn) :
  In (json_path (now_compact w), Err e) (opens (trace_of w)) ->
  outcome_of w = Raised e
  /\ json_dumps (trace_of w) = []
  /\ last (written (trace_of w)) []
     = joined_full_text (thread_messages w (trace_of w))
  /\ 6 <= List.length (written (trace_of w)).
Proof.
  destruct (invocation_invariants w) as (_ & _ & _ & _ & _ & _ & _ & _ & H & _ & _).
  exact (H e).
Qed.

Lemma refused_json_leaves_markdown_witness :
  outcome_of world_json_refused = Raised disk_full
  /\ json_dumps (trace_of world_json_refused) = []
  /\ last (written (trace_of world_json_refused)) []
     = joined_full_text (thread_messages world_json_refused
                                         (trace_of world_json_refused))
  /\ 6 <= List.length (written (trace_of world_json_refused)).
Proof.
  apply (refused_json_leaves_markdown world_json_refused disk_full).
  vm_compute. right. left. reflexivity.
Defined.

(** X18.  The dictionary handed to [json.dump] is the only one of the
    invocation.  It carries the third clock reading as timestamp, the
    description as typed, which is not blank, and the instructions line
    stripped of whitespace, with the word [none] standing for a line that
    strips to nothing; the JSON file thus always names the instructions,
    also when the message and the Markdown file leave them out. *)
Theorem json_report_fields (w : World) (raw : str) (res : ReportJson) :
  In (instructions_prompt, Some raw) (answers (trace_of w)) ->
  In res (json_dumps (trace_of w)) ->
  json_dumps (trace_of w) = [res]
  /\ timestamp res = now_iso w
  /\ entered_description w = Some (process_description res)
  /\ strip (process_description res) <> []
  /\ custom_commands res
     = (if is_sentinel (strip raw) then none_word else strip raw).
Proof.
  destruct (invocation_invariants w) as (_ & _ & _ & _ & _ & _ & _ & _ & _ & H & _).
  exact (H raw res).
Qed.

Lemma json_report_fields_witness :
  json_dumps (trace_of world_capital_none) = [capital_none_report]
  /\ timestamp capital_none_report = now_iso world_capital_none
  /\ entered_description world_capital_none
     = Some (process_description capital_none_report)
  /\ strip (process_description capital_none_report) <> []
  /\ custom_commands capital_none_report
     = (if is_sentinel (strip (lit "  None ")) then none_word
        else strip (lit "  None ")).
Proof.
  apply (json_report_fields world_capital_none (lit "  None ")
           capital_none_report).
  - vm_compute. do 3 right. left. reflexivity.
  - vm_compute. left. reflexivity.
Defined.

(** X19.  An invocation that saves its report touches the file system in
    one order: the output directory, the Markdown file opened and written
    chunk by chunk, then the JSON file opened and dumped.  Both file names
    carry the same first clock reading. *)
Theorem files_written_in_order (w : World) (res : ReportJson) :
  In res (json_dumps (trace_of w)) ->
  file_events (trace_of w)
  = [EvMkdir out_dir (Ok tt); EvOpen (md_path (now_compact w)) (Ok tt)]
    ++ map (EvWrite (md_path (now_compact w))) (written (trace_of w))
    ++ [EvOpen (json_path (now_compact w)) (Ok tt);
        EvJsonDump (json_path (now_compact w)) res].
Proof.
  destruct (invocation_invariants w) as (_ & _ & _ & _ & _ & _ & _ & _ & _ & _ & H).
  exact (H res).
Qed.

Lemma files_written_in_order_witness :
  file_events (trace_of world_plain)
  = [EvMkdir out_dir (Ok tt); EvOpen (md_path (now_compact world_plain)) (Ok tt)]
    ++ map (EvWrite (md_path (now_compact world_plain)))
           (written (trace_of world_plain))
    ++ [EvOpen (json_path (now_compact world_plain)) (Ok tt);
        EvJsonDump (json_path (now_compact world_plain)) plain_report].
Proof.
  apply (files_written_in_order world_plain plain_report).
  vm_compute. left. reflexivity.
Defined.

(** X20.  With both settings present, whatever happens in between (a saved
    report, an early return or an exception), the trace starts with the
    cleared screen, the banner and the prompt, and it ends with the
    cleanup block: its opening line is printed and its closing line is the
    last event. *)
Theorem console_opens_and_closes (w : World) :
  env_truthy (getenv w ENDPOINT_KEY) = true ->
  env_truthy (getenv w MODEL_KEY) = true ->
  firstn 3 (trace_of w) = [EvClearScreen; EvPrint banner; EvPrint describe_prompt]
  /\ In cleaning_msg (printed (trace_of w))
  /\ last (trace_of w) EvClearScreen = EvPrint done_msg.
Proof.
  intros Hep Hmd. unfold trace_of.
  rewrite (invoke_configured w Hep Hmd). cbn zeta. cbn [snd].
  unfold session. rewrite !run_bind_print. cbn [after snd fst app].
  match goal with
  | |- context [cleanup_events w ?s] => generalize s
  end.
  match goal with
  | |- context [snd ?r] => generalize (snd r)
  end.
  intros t s. repeat split.
  - unfold printed. cbn [flat_map app]. rewrite flat_map_app.
    right. right. apply in_or_app. right. now left.
  - unfold cleanup_events.
    change (EvClearScreen :: EvPrint banner :: EvPrint describe_prompt
            :: t ++ EvPrint cleaning_msg
               :: flat_map (delete_round w)
                    [orchestrator s; analysis_agent s; optimizer_agent s]
                  ++ [EvPrint done_msg])
      with ((EvClearScreen :: EvPrint banner :: EvPrint describe_prompt :: t)
            ++ (EvPrint cleaning_msg
                :: flat_map (delete_round w)
                     [orchestrator s; analysis_agent s; optimizer_agent s])
            ++ [EvPrint done_msg]).
    now rewrite app_assoc, last_last.
Qed.

Lemma console_opens_and_closes_witness :
  firstn 3 (trace_of world_optimizer_refused)
  = [EvClearScreen; EvPrint banner; EvPrint describe_prompt]
  /\ In cleaning_msg (printed (trace_of world_optimizer_refused))
  /\ last (trace_of world_optimizer_refused) EvClearScreen = EvPrint done_msg.
Proof. apply (console_opens_and_closes world_optimizer_refused); reflexivity. Defined.
